(** * Wallet risk scoring: a shallow embedding of the scorer, the metrics
      normalizer and the batch pipeline, with the properties of the
      specification stated over them.

    Source files embedded here:
    - [risk_scorer.py]            -> module [RiskScorer]
    - [compound_data_fetcher.py]  -> modules [Fetcher]
      ([analyze_transaction_patterns]) and [Interactions]
      ([get_compound_interactions]); the network calls are an interface
    - [main.py]                   -> module [Pipeline]

    Python numbers are kept as the program has them: unbounded integers
    ([Z]) and IEEE-754 binary64 floats (the primitive [float]), with the
    int/float coercions, the comparison rules and the exceptions of the
    arithmetic operators written out in module [Py]. *)

From Stdlib Require Import ZArith QArith Qround Lia List Bool.
From Stdlib Require Import PrimFloat FloatOps SpecFloat FloatAxioms.
From stdpp Require Import base strings gmap list.

Set Warnings "-inexact-float".
Local Open Scope Z_scope.

(* ===================================================================== *)
(** * Python values, exceptions and arithmetic                            *)
(* ===================================================================== *)

Module Py.

(** Exceptions carry their class and the text of [str(e)]. *)
Inductive exn_class :=
  | ZeroDivisionError | OverflowError | ValueError | TypeError
  | KeyError | OSError.

Record exn := Exn { exn_cls : exn_class; exn_msg : string }.

(** A computation either returns or raises. *)
Inductive result (A : Type) :=
  | Ok (a : A)
  | Raise (e : exn).
Arguments Ok {A} a.
Arguments Raise {A} e.

Definition bind {A B} (c : result A) (k : A -> result B) : result B :=
  match c with
  | Ok a => k a
  | Raise e => Raise e
  end.

Notation "'let*' x ':=' c 'in' k" := (bind c (fun x => k))
  (at level 10, x name, c at level 100, k at level 200).

Definition raise {A} (c : exn_class) (msg : string) : result A :=
  Raise (Exn c msg).

Definition is_ok {A} (c : result A) : bool :=
  match c with Ok _ => true | Raise _ => false end.

(** [mapM f l]: run [f] on the items left to right, stop at the first
    exception (a list comprehension or a generator being consumed). *)
Fixpoint mapM {A B} (f : A -> result B) (l : list A) : result (list B) :=
  match l with
  | [] => Ok []
  | x :: l' =>
      let* y := f x in
      let* ys := mapM f l' in
      Ok (y :: ys)
  end.

(** ** Numbers *)

(** A Python number: an [int] or a [float]. *)
Inductive num :=
  | NInt (z : Z)
  | NFloat (f : float).

(** The exact value of a number, for the comparison operators: Python
    compares int with float, and float with float, by mathematical value;
    NaN is unordered and the two zeros are equal. *)
Inductive xreal :=
  | XNan
  | XNegInf
  | XFin (q : Q)
  | XPosInf.

Definition dyadic (m e : Z) : Q :=
  match e with
  | Z0 => inject_Z m
  | Zpos p => inject_Z (m * Z.pow_pos 2 p)
  | Zneg p => Qmake m (Pos.pow 2 p)
  end.

Definition xreal_of_SF (s : spec_float) : xreal :=
  match s with
  | S754_nan => XNan
  | S754_zero _ => XFin 0
  | S754_infinity true => XNegInf
  | S754_infinity false => XPosInf
  | S754_finite sg m e => XFin (dyadic (cond_Zopp sg (Zpos m)) e)
  end.

Definition value_of_float (f : float) : xreal := xreal_of_SF (Prim2SF f).

Definition value (n : num) : xreal :=
  match n with
  | NInt z => XFin (inject_Z z)
  | NFloat f => value_of_float f
  end.

Definition xle (a b : xreal) : bool :=
  match a, b with
  | XNan, _ | _, XNan => false
  | XNegInf, _ => true
  | _, XPosInf => true
  | XFin p, XFin q => Qle_bool p q
  | _, _ => false
  end.

Definition xeq (a b : xreal) : bool :=
  match a, b with
  | XNegInf, XNegInf | XPosInf, XPosInf => true
  | XFin p, XFin q => Qeq_bool p q
  | _, _ => false
  end.

Definition xlt (a b : xreal) : bool := xle a b && negb (xle b a).

(** [a <= b], [a < b], [a >= b], [a > b], [a == b]. *)
Definition le (a b : num) : bool := xle (value a) (value b).
Definition lt (a b : num) : bool := xlt (value a) (value b).
Definition ge (a b : num) : bool := le b a.
Definition gt (a b : num) : bool := lt b a.
Definition eq (a b : num) : bool := xeq (value a) (value b).

(** [max(a, b)] and [min(a, b)] with two positional arguments: the first
    is kept unless the second is strictly greater (smaller). *)
Definition max2 (a b : num) : num := if gt b a then b else a.
Definition min2 (a b : num) : num := if lt b a then b else a.

(** ** int -> float *)

(** The smallest magnitude that no longer rounds to a finite double:
    [2^1024 - 2^970], halfway between [DBL_MAX] and [2^1024]. *)
Definition float_overflow_bound : Z := 2 ^ 1024 - 2 ^ 970.

Definition SF_of_Z (z : Z) : spec_float :=
  match z with
  | Z0 => S754_zero false
  | Zpos p => S754_finite false p 0
  | Zneg p => S754_finite true p 0
  end.

(** [float(z)] for an int: nearest double, ties to even. *)
Definition float_of_int (z : Z) : result float :=
  if float_overflow_bound <=? Z.abs z
  then raise OverflowError "int too large to convert to float"
  else Ok (SF2Prim (binary_normalize prec emax z 0 false)).

Definition to_float (n : num) : result float :=
  match n with
  | NInt z => float_of_int z
  | NFloat f => Ok f
  end.

Definition float_is_zero (f : float) : bool :=
  match Prim2SF f with
  | S754_zero _ => true
  | _ => false
  end.

Definition is_zero (n : num) : bool :=
  match n with
  | NInt z => z =? 0
  | NFloat f => float_is_zero f
  end.

(** ** Arithmetic operators *)

(** [a + b] and [a * b]: exact on two ints, binary64 otherwise (an int
    operand is converted first). *)
Definition add (a b : num) : result num :=
  match a, b with
  | NInt x, NInt y => Ok (NInt (x + y))
  | _, _ =>
      let* x := to_float a in
      let* y := to_float b in
      Ok (NFloat (x + y)%float)
  end.

Definition mul (a b : num) : result num :=
  match a, b with
  | NInt x, NInt y => Ok (NInt (x * y))
  | _, _ =>
      let* x := to_float a in
      let* y := to_float b in
      Ok (NFloat (x * y)%float)
  end.

(** [a / b], true division. int / int is the correctly rounded quotient
    of the exact integers; it raises on a zero divisor and when the
    quotient rounds beyond the doubles. With a float operand both are
    converted, then a zero divisor raises. *)
Definition truediv (a b : num) : result num :=
  match a, b with
  | NInt x, NInt y =>
      if y =? 0 then raise ZeroDivisionError "division by zero"
      else if float_overflow_bound * Z.abs y <=? Z.abs x
      then raise OverflowError "integer division result too large for a float"
      else Ok (NFloat (SF2Prim (SFdiv prec emax (SF_of_Z x) (SF_of_Z y))))
  | _, _ =>
      let* x := to_float a in
      let* y := to_float b in
      if is_zero b then raise ZeroDivisionError "float division by zero"
      else Ok (NFloat (x / y)%float)
  end.

(** [sum(items)]: starts from the int [0] and adds left to right. *)
Fixpoint sum_from (acc : num) (items : list num) : result num :=
  match items with
  | [] => Ok acc
  | x :: rest => let* acc' := add acc x in sum_from acc' rest
  end.

Definition sum (items : list num) : result num := sum_from (NInt 0) items.

(** [int(x)]: truncation toward zero of the exact value. *)
Definition Qtrunc (q : Q) : Z :=
  if Qle_bool 0 q then Qfloor q else Qceiling q.

Definition int_of (n : num) : result Z :=
  match n with
  | NInt z => Ok z
  | NFloat f =>
      match value_of_float f with
      | XNan => raise ValueError "cannot convert float NaN to integer"
      | XNegInf | XPosInf =>
          raise OverflowError "cannot convert float infinity to integer"
      | XFin q => Ok (Qtrunc q)
      end
  end.

(** Dictionaries with string keys; [d.get(k, dflt)]. *)
Definition get {V} (d : gmap string V) (k : string) (dflt : V) : V :=
  default dflt (d !! k).

End Py.

Import Py.

(* ===================================================================== *)
(** * risk_scorer.py                                                      *)
(* ===================================================================== *)

Module RiskScorer.

(** [self.weights], in the order of the dict literal. *)
Definition weights : list (string * num) :=
  [ ("transaction_volume", NFloat 0.20);
    ("transaction_frequency", NFloat 0.15);
    ("protocol_experience", NFloat 0.25);
    ("balance_stability", NFloat 0.15);
    ("failure_rate", NFloat 0.10);
    ("counterparty_diversity", NFloat 0.10);
    ("recent_activity", NFloat 0.05) ].

(** [d[k]] on an insertion-ordered dict held as an association list. *)
Fixpoint getitem (d : list (string * num)) (k : string) : result num :=
  match d with
  | [] => raise KeyError k
  | (k', v) :: d' => if String.eqb k' k then Ok v else getitem d' k
  end.

Definition calculate_transaction_volume_score (metrics : gmap string num)
  : num :=
  let volume_eth := get metrics "total_value_eth" (NInt 0) in
  if ge volume_eth (NInt 1000) then NFloat 0.1
  else if ge volume_eth (NInt 100) then NFloat 0.2
  else if ge volume_eth (NInt 10) then NFloat 0.4
  else if ge volume_eth (NInt 1) then NFloat 0.6
  else NFloat 0.9.

Definition calculate_frequency_score (metrics : gmap string num) : num :=
  let frequency := get metrics "transaction_frequency" (NInt 0) in
  if ge frequency (NFloat 1.0) then NFloat 0.1
  else if ge frequency (NFloat 0.5) then NFloat 0.2
  else if ge frequency (NFloat 0.1) then NFloat 0.4
  else if gt frequency (NInt 0) then NFloat 0.7
  else NFloat 1.0.

Definition calculate_protocol_experience_score
  (compound_data : gmap string num) : num :=
  let compound_count := get compound_data "compound_count" (NInt 0) in
  if ge compound_count (NInt 50) then NFloat 0.05
  else if ge compound_count (NInt 20) then NFloat 0.15
  else if ge compound_count (NInt 10) then NFloat 0.3
  else if ge compound_count (NInt 5) then NFloat 0.5
  else if gt compound_count (NInt 0) then NFloat 0.7
  else NFloat 0.95.

(** The two decisions inside [calculate_balance_stability_score]. *)
Definition balance_base_score (current_balance : num) : num :=
  if ge current_balance (NInt 100) then NFloat 0.05
  else if ge current_balance (NInt 10) then NFloat 0.15
  else if ge current_balance (NInt 1) then NFloat 0.3
  else if ge current_balance (NFloat 0.1) then NFloat 0.6
  else NFloat 0.9.

Definition balance_adjustment (balance_to_volume_ratio : num) : num :=
  if gt balance_to_volume_ratio (NFloat 0.1) then NFloat (-0.1)
  else if lt balance_to_volume_ratio (NFloat 0.01) then NFloat 0.2
  else NInt 0.

Definition calculate_balance_stability_score
  (balance_data metrics : gmap string num) : result num :=
  let current_balance := get balance_data "current_balance_eth" (NInt 0) in
  let volume_eth := get metrics "total_value_eth" (NInt 0) in
  let* balance_to_volume_ratio :=
    truediv current_balance (max2 volume_eth (NFloat 0.001)) in
  let base_score := balance_base_score current_balance in
  let adjustment := balance_adjustment balance_to_volume_ratio in
  let* adjusted := add base_score adjustment in
  Ok (max2 (NInt 0) (min2 (NInt 1) adjusted)).

Definition calculate_failure_rate_score (metrics : gmap string num) : num :=
  let failure_rate := get metrics "failed_transaction_rate" (NInt 0) in
  if eq failure_rate (NInt 0) then NFloat 0.0
  else if le failure_rate (NFloat 0.02) then NFloat 0.1
  else if le failure_rate (NFloat 0.05) then NFloat 0.3
  else if le failure_rate (NFloat 0.1) then NFloat 0.6
  else NFloat 1.0.

(** [diversity_ratio] is computed before the buckets and then unused; the
    division is kept because it can raise. *)
Definition calculate_counterparty_diversity_score
  (metrics : gmap string num) : result num :=
  let unique_counterparties := get metrics "unique_counterparties" (NInt 0) in
  let total_transactions := get metrics "total_transactions" (NInt 1) in
  let* diversity_ratio := truediv unique_counterparties total_transactions in
  if ge unique_counterparties (NInt 100) then Ok (NFloat 0.05)
  else if ge unique_counterparties (NInt 50) then Ok (NFloat 0.15)
  else if ge unique_counterparties (NInt 20) then Ok (NFloat 0.3)
  else if ge unique_counterparties (NInt 10) then Ok (NFloat 0.5)
  else if gt unique_counterparties (NInt 0) then Ok (NFloat 0.8)
  else Ok (NFloat 1.0).

Definition calculate_recent_activity_score (metrics : gmap string num)
  : num :=
  let time_span_days := get metrics "time_span_days" (NInt 0) in
  if le time_span_days (NInt 30) then NFloat 0.1
  else if le time_span_days (NInt 90) then NFloat 0.3
  else if le time_span_days (NInt 180) then NFloat 0.5
  else if le time_span_days (NInt 365) then NFloat 0.7
  else NFloat 1.0.

(** The dict a pipeline pass yields for a wallet. A scored result has no
    [error] key, an error placeholder has no [weighted_score] key. *)
Record RiskAssessment := {
  wallet_address : string;
  risk_score : Z;
  risk_category : string;
  component_scores : list (string * num);
  weighted_score : option num;
  transaction_metrics : gmap string num;
  compound_data : gmap string num;
  balance_data : gmap string num;
  error : option string
}.

(** [sum(scores[factor] * self.weights[factor] for factor in scores)] *)
Definition weighted_sum (scores : list (string * num)) : result num :=
  let* terms :=
    mapM (fun kv : string * num =>
            let* w := getitem weights (fst kv) in mul (snd kv) w)
         scores in
  Py.sum terms.

Definition risk_category_of (risk_score : Z) : string :=
  if risk_score <=? 200 then "Very Low Risk"
  else if risk_score <=? 400 then "Low Risk"
  else if risk_score <=? 600 then "Medium Risk"
  else if risk_score <=? 800 then "High Risk"
  else "Very High Risk".

(** Lines 167-191 of [calculate_risk_score]: from the filled [scores]
    dict to the returned record. *)
Definition assess (wallet : string) (scores : list (string * num))
  (tm cd bd : gmap string num) : result RiskAssessment :=
  let* weighted := weighted_sum scores in
  let* scaled := mul weighted (NInt 1000) in
  let* score := int_of scaled in
  Ok {| wallet_address := wallet;
        risk_score := score;
        risk_category := risk_category_of score;
        component_scores := scores;
        weighted_score := Some weighted;
        transaction_metrics := tm;
        compound_data := cd;
        balance_data := bd;
        error := None |}.

Definition calculate_risk_score (wallet : string)
  (tm cd bd : gmap string num) : result RiskAssessment :=
  let s_volume := calculate_transaction_volume_score tm in
  let s_frequency := calculate_frequency_score tm in
  let s_protocol := calculate_protocol_experience_score cd in
  let* s_balance := calculate_balance_stability_score bd tm in
  let s_failure := calculate_failure_rate_score tm in
  let* s_diversity := calculate_counterparty_diversity_score tm in
  let s_recent := calculate_recent_activity_score tm in
  assess wallet
    [ ("transaction_volume", s_volume);
      ("transaction_frequency", s_frequency);
      ("protocol_experience", s_protocol);
      ("balance_stability", s_balance);
      ("failure_rate", s_failure);
      ("counterparty_diversity", s_diversity);
      ("recent_activity", s_recent) ]
    tm cd bd.

End RiskScorer.

Import RiskScorer.

(* ===================================================================== *)
(** * compound_data_fetcher.py                                            *)
(* ===================================================================== *)

Module Fetcher.

(** A field of a raw transaction record, as the provider delivers it: a
    string or an int. A record is a dict over the keys ["value"],
    ["isError"], ["to"], ["from"], ["timeStamp"]. *)
Inductive field :=
  | FStr (s : string)
  | FInt (z : Z).

#[global] Instance field_eq_dec : EqDecision field.
Proof. solve_decision. Defined.

(** What a network method answers: [{'success': True, ...}] with its
    payload, or [{'success': False, 'error': msg}]. *)
Inductive response (A : Type) :=
  | Success (payload : A)
  | Failure (error : string).
Arguments Success {A} payload.
Arguments Failure {A} error.

(** Truth value of [tx.get(k)]: a missing key gives [None]. *)
Definition truthy (v : option field) : bool :=
  match v with
  | None => false
  | Some (FStr s) => negb (String.eqb s "")
  | Some (FInt z) => negb (z =? 0)
  end.

Definition max_list (l : list Z) : Z := fold_right Z.max (hd 0 l) l.
Definition min_list (l : list Z) : Z := fold_right Z.min (hd 0 l) l.

Section Normalizer.

(** [float(s)] and [int(s)] on a string are the interpreter's parsers;
    the normalizer is stated over any such pair. *)
Variable float_of_str : string -> result float.
Variable int_of_str : string -> result Z.

Definition float_of_field (v : field) : result float :=
  match v with
  | FStr s => float_of_str s
  | FInt z => float_of_int z
  end.

Definition int_of_field (v : field) : result Z :=
  match v with
  | FStr s => int_of_str s
  | FInt z => Ok z
  end.

(** The result for an empty transaction list (lines 164-172). *)
Definition empty_metrics : gmap string num :=
  <["total_transactions" := NInt 0]>
  (<["avg_transaction_value" := NInt 0]>
  (<["transaction_frequency" := NInt 0]>
  (<["failed_transactions" := NInt 0]>
  (<["unique_counterparties" := NInt 0]>
  (<["time_span_days" := NInt 0]> ∅))))).

(** Lines 174-202: the statistics of a non-empty list. *)
Definition analyze_nonempty
  (transactions : list (gmap string field)) : result (gmap string num) :=
  let total_txs := Z.of_nat (length transactions) in
  let* values :=
    mapM (fun tx => float_of_field (get tx "value" (FInt 0)))
         transactions in
  let* total_value := Py.sum (map NFloat values) in
  let* avg_value :=
    if 0 <? total_txs then truediv total_value (NInt total_txs)
    else Ok (NInt 0) in
  let failed_txs :=
    Z.of_nat (length (filter (fun tx : gmap string field =>
                                tx !! "isError" = Some (FStr "1"))
                             transactions)) in
  let counterparties :=
    remove_dups
      (flat_map (fun tx => [get tx "to" (FStr ""); get tx "from" (FStr "")])
                transactions) in
  let* timestamps :=
    mapM (fun tx => int_of_field (get tx "timeStamp" (FInt 0)))
         (List.filter (fun tx : gmap string field => truthy (tx !! "timeStamp"))
                      transactions) in
  let* span_freq :=
    match timestamps with
    | _ :: _ =>
        let* time_span :=
          truediv (NInt (max_list timestamps - min_list timestamps))
                  (NInt (24 * 3600)) in
        let* frequency :=
          truediv (NInt total_txs) (max2 time_span (NInt 1)) in
        Ok (time_span, frequency)
    | [] => Ok (NInt 0, NInt 0)
    end in
  let time_span := fst span_freq in
  let frequency := snd span_freq in
  let* failed_rate :=
    if 0 <? total_txs then truediv (NInt failed_txs) (NInt total_txs)
    else Ok (NInt 0) in
  let* total_value_eth := truediv total_value (NInt (10 ^ 18)) in
  Ok (<["total_transactions" := NInt total_txs]>
     (<["avg_transaction_value" := avg_value]>
     (<["transaction_frequency" := frequency]>
     (<["failed_transactions" := NInt failed_txs]>
     (<["failed_transaction_rate" := failed_rate]>
     (<["unique_counterparties" := NInt (Z.of_nat (length counterparties))]>
     (<["time_span_days" := time_span]>
     (<["total_value_eth" := total_value_eth]> ∅)))))))).

Definition analyze_transaction_patterns
  (transactions : list (gmap string field)) : result (gmap string num) :=
  match transactions with
  | [] => Ok empty_metrics
  | _ :: _ => analyze_nonempty transactions
  end.

End Normalizer.

(** [repr(s)] of a string, as the parsers quote their argument in an
    error message: single quotes, or double quotes when the text has a
    single and no double quote; a backslash before the quote in use and
    the backslash; [\t], [\n], [\r]; [\xhh] for the other control
    characters. Bytes above 127 are copied: the text is read as the UTF-8
    form of printable characters. *)
Definition backslash : Ascii.ascii := Ascii.ascii_of_N 92.
Definition single_quote : Ascii.ascii := Ascii.ascii_of_N 39.
Definition double_quote : Ascii.ascii := Ascii.ascii_of_N 34.

Definition hex_digit (n : N) : Ascii.ascii :=
  Ascii.ascii_of_N (if (n <? 10)%N then 48 + n else 87 + n).

Definition repr_char (quote c : Ascii.ascii) : string :=
  let n := Ascii.N_of_ascii c in
  let escaped (x : Ascii.ascii) := String backslash (String x EmptyString) in
  if Ascii.eqb c quote || Ascii.eqb c backslash then escaped c
  else if (n =? 9)%N then escaped (Ascii.ascii_of_N 116)
  else if (n =? 10)%N then escaped (Ascii.ascii_of_N 110)
  else if (n =? 13)%N then escaped (Ascii.ascii_of_N 114)
  else if (n <? 32)%N || (n =? 127)%N
  then String backslash
         (String (Ascii.ascii_of_N 120)
            (String (hex_digit (n / 16))
               (String (hex_digit (n mod 16)) EmptyString)))
  else String c EmptyString.

Fixpoint has_char (c : Ascii.ascii) (s : string) : bool :=
  match s with
  | EmptyString => false
  | String c' s' => Ascii.eqb c c' || has_char c s'
  end.

Fixpoint repr_body (quote : Ascii.ascii) (s : string) : string :=
  match s with
  | EmptyString => EmptyString
  | String c s' => String.append (repr_char quote c) (repr_body quote s')
  end.

Definition repr (s : string) : string :=
  let quote :=
    if has_char single_quote s && negb (has_char double_quote s)
    then double_quote else single_quote in
  String quote (String.append (repr_body quote s) (String quote EmptyString)).

(** Stand-ins for [int(s)] and [float(s)] on the provider's plain decimal
    strings (base-unit values, unix timestamps), to run the normalizer on
    concrete records: a non-empty run of the digits 0-9 is read, anything
    else is refused with the interpreter's message. Signs, blanks,
    underscores, fractions, exponents and the interpreter's limit on the
    number of digits of an int are outside them. *)
Definition digit_of (c : Ascii.ascii) : option Z :=
  let n := Z.of_N (Ascii.N_of_ascii c) in
  if (48 <=? n) && (n <=? 57) then Some (n - 48) else None.

Fixpoint digits_from (acc : Z) (s : string) : option Z :=
  match s with
  | EmptyString => Some acc
  | String c s' =>
      match digit_of c with
      | Some d => digits_from (10 * acc + d) s'
      | None => None
      end
  end.

(** The message shows at most 200 characters of the quoted text. *)
Definition decimal_int (s : string) : result Z :=
  match s, digits_from 0 s with
  | String _ _, Some z => Ok z
  | _, _ =>
      raise ValueError
        (String.append "invalid literal for int() with base 10: "
                       (String.substring 0 200 (repr s)))
  end.

(** The nearest double, ties to even; a value beyond the doubles reads
    as [inf]. *)
Definition decimal_float (s : string) : result float :=
  match s, digits_from 0 s with
  | String _ _, Some z => Ok (SF2Prim (binary_normalize prec emax z 0 false))
  | _, _ =>
      raise ValueError
        (String.append "could not convert string to float: " (repr s))
  end.

End Fetcher.

Import Fetcher.

(* ===================================================================== *)
(** * main.py                                                             *)
(* ===================================================================== *)

Module Pipeline.

(** The network methods of [CompoundDataFetcher] that [process_wallet]
    calls. [get_wallet_transactions] and [get_wallet_balance_history]
    catch every exception themselves and answer with a [response];
    [get_compound_interactions] indexes the records outside any handler,
    so it may also raise. Each call is a fresh request: the three answers
    for one wallet are independent of one another. *)
Record DataFetcher := {
  get_wallet_transactions : string -> response (list (gmap string field));
  get_compound_interactions : string -> result (response (gmap string num));
  get_wallet_balance_history : string -> response (gmap string num)
}.

(** One row of the output table; the [processed_at] clock column is
    left out. *)
Record Row := {
  wallet_id : string;
  row_risk_score : Z;
  row_risk_category : string;
  row_total_transactions : num;
  compound_interactions : num;
  current_balance_eth : num;
  transaction_volume_eth : num;
  transaction_frequency : num;
  failed_transaction_rate : num;
  unique_counterparties : num;
  row_error : string
}.

Definition _create_error_result (wallet : string) (error_message : string)
  : RiskAssessment :=
  {| wallet_address := wallet;
     risk_score := 999;
     risk_category := "Error - Unable to Assess";
     component_scores := [];
     weighted_score := None;
     transaction_metrics := ∅;
     compound_data := ∅;
     balance_data := ∅;
     error := Some error_message |}.

(** The dicts substituted for a failed protocol-usage or balance fetch.
    Only their numeric entries are kept: the ['success'] flag and the
    empty ['compound_transactions'] list are read by nothing downstream. *)
Definition default_compound_data : gmap string num :=
  {[ "compound_count" := NInt 0 ]}.
Definition default_balance_data : gmap string num :=
  {[ "current_balance_eth" := NInt 0 ]}.

Definition _create_results_dataframe (results : list RiskAssessment)
  : list Row :=
  map (fun result =>
         {| wallet_id := wallet_address result;
            row_risk_score := risk_score result;
            row_risk_category := risk_category result;
            row_total_transactions :=
              get (transaction_metrics result) "total_transactions" (NInt 0);
            compound_interactions :=
              get (compound_data result) "compound_count" (NInt 0);
            current_balance_eth :=
              get (balance_data result) "current_balance_eth" (NInt 0);
            transaction_volume_eth :=
              get (transaction_metrics result) "total_value_eth" (NInt 0);
            transaction_frequency :=
              get (transaction_metrics result) "transaction_frequency" (NInt 0);
            failed_transaction_rate :=
              get (transaction_metrics result) "failed_transaction_rate"
                  (NInt 0);
            unique_counterparties :=
              get (transaction_metrics result) "unique_counterparties" (NInt 0);
            row_error := default "" (error result) |})
      results.

Section Analyzer.

Variable float_of_str : string -> result float.
Variable int_of_str : string -> result Z.
Variable data_fetcher : DataFetcher.

(** The record store and the clock: [pd.read_csv(...)['wallet_id']],
    [df.to_csv(path)], [time.sleep(s)] and the printed summary. *)
Variable read_wallet_ids : string -> result (list string).
Variable to_csv : list Row -> string -> result unit.
Variable sleep : num -> result unit.
Variable _print_summary_statistics : list Row -> result unit.

(** The body of the [try] in [process_wallet], after a successful
    transaction fetch. *)
Definition score_wallet (wallet : string)
  (transactions : list (gmap string field)) : result RiskAssessment :=
  let* tx_metrics :=
    analyze_transaction_patterns float_of_str int_of_str transactions in
  let* fetched := get_compound_interactions data_fetcher wallet in
  let compound :=
    match fetched with
    | Success d => d
    | Failure _ => default_compound_data
    end in
  let balance :=
    match get_wallet_balance_history data_fetcher wallet with
    | Success d => d
    | Failure _ => default_balance_data
    end in
  calculate_risk_score wallet tx_metrics compound balance.

Definition process_wallet (wallet : string) : RiskAssessment :=
  match get_wallet_transactions data_fetcher wallet with
  | Failure err =>
      _create_error_result wallet ("Transaction fetch error: " ++ err)
  | Success transactions =>
      match score_wallet wallet transactions with
      | Ok risk_result => risk_result
      | Raise e => _create_error_result wallet (exn_msg e)
      end
  end.

Definition _save_intermediate_results (results : list RiskAssessment)
  (filename : string) : result unit :=
  to_csv (_create_results_dataframe results) filename.

(** One iteration of the loop of [process_wallet_list]: the [try] block,
    and the handler that appends an error record. *)
Definition loop_body (output_file : string) (delay_seconds : num)
  (i : Z) (wallet : string) (results : list RiskAssessment)
  : list RiskAssessment :=
  let result := process_wallet wallet in
  let results := results ++ [result] in
  let rest_of_try :=
    let* saved :=
      if i mod 10 =? 0
      then _save_intermediate_results results ("temp_" ++ output_file)
      else Ok tt in
    if gt delay_seconds (NInt 0) then sleep delay_seconds else Ok tt in
  match rest_of_try with
  | Ok _ => results
  | Raise e =>
      results ++ [_create_error_result wallet ("Critical error: " ++ exn_msg e)]
  end.

(** [for i, wallet_address in enumerate(wallet_addresses, 1)] *)
Fixpoint batch_loop (output_file : string) (delay_seconds : num)
  (i : Z) (wallets : list string) (results : list RiskAssessment)
  : list RiskAssessment :=
  match wallets with
  | [] => results
  | wallet :: rest =>
      batch_loop output_file delay_seconds (i + 1) rest
                 (loop_body output_file delay_seconds i wallet results)
  end.

Definition process_wallet_list (wallet_file output_file : string)
  (delay_seconds : num) : result (list Row) :=
  let* wallet_addresses := read_wallet_ids wallet_file in
  let results := batch_loop output_file delay_seconds 1 wallet_addresses [] in
  let df_results := _create_results_dataframe results in
  let* written := to_csv df_results output_file in
  let* printed := _print_summary_statistics df_results in
  Ok df_results.

End Analyzer.

End Pipeline.

Import Pipeline.

(* ===================================================================== *)
(** * The finitely many outcomes of the scorer                            *)
(* ===================================================================== *)

(** Every factor scorer returns one of a handful of constants, so the
    weighted sum ranges over a finite set of doubles. This module lists
    the constants and computes that set stage by stage, the way
    [weighted_sum] adds the terms. *)
Module Outcomes.

Definition volume_values : list num :=
  [NFloat 0.1; NFloat 0.2; NFloat 0.4; NFloat 0.6; NFloat 0.9].
Definition frequency_values : list num :=
  [NFloat 0.1; NFloat 0.2; NFloat 0.4; NFloat 0.7; NFloat 1.0].
Definition protocol_values : list num :=
  [NFloat 0.05; NFloat 0.15; NFloat 0.3; NFloat 0.5; NFloat 0.7; NFloat 0.95].
Definition base_values : list num :=
  [NFloat 0.05; NFloat 0.15; NFloat 0.3; NFloat 0.6; NFloat 0.9].
Definition adjustment_values : list num :=
  [NFloat (-0.1); NFloat 0.2; NInt 0].
Definition failure_values : list num :=
  [NFloat 0.0; NFloat 0.1; NFloat 0.3; NFloat 0.6; NFloat 1.0].
Definition diversity_values : list num :=
  [NFloat 0.05; NFloat 0.15; NFloat 0.3; NFloat 0.5; NFloat 0.8; NFloat 1.0].
Definition recent_values : list num :=
  [NFloat 0.1; NFloat 0.3; NFloat 0.5; NFloat 0.7; NFloat 1.0].

(** [max(0, min(1, base + adjustment))] for one base and one adjustment. *)
Definition clamped (base adj : num) : list num :=
  match add base adj with
  | Ok s => [max2 (NInt 0) (min2 (NInt 1) s)]
  | Raise _ => []
  end.

Definition balance_values : list num :=
  flat_map (fun b => flat_map (clamped b) adjustment_values) base_values.

(** Identity of two numbers (same type, same bits). *)
Definition num_eqb (a b : num) : bool :=
  match a, b with
  | NInt x, NInt y => x =? y
  | NFloat x, NFloat y => PrimFloat.Leibniz.eqb x y
  | _, _ => false
  end.

(** An order used only to keep the lists short; nothing is proved of it. *)
Definition num_ltb (a b : num) : bool :=
  match a, b with
  | NFloat x, NFloat y => PrimFloat.ltb x y
  | NInt x, NInt y => x <? y
  | NInt _, NFloat _ => true
  | _, _ => false
  end.

(** Union of two lists that drops an element only when an identical one
    is kept. *)
Fixpoint merge (l1 : list num) : list num -> list num :=
  fix inner (l2 : list num) : list num :=
    match l1, l2 with
    | [], _ => l2
    | _, [] => l1
    | x :: l1', y :: l2' =>
        if num_eqb x y then x :: merge l1' l2'
        else if num_ltb x y then x :: merge l1' l2
        else y :: inner l2'
    end.

(** The results of [op a t] for [a] in [acc], where [op] returns. *)
Definition outcomes (op : num -> num -> result num) (acc : list num) (t : num)
  : list num :=
  flat_map (fun a => match op a t with Ok s => [s] | Raise _ => [] end) acc.

(** Every [a + t] with [a] in [acc] and [t] in [terms]. *)
Definition stage (acc terms : list num) : list num :=
  fold_right (fun t r => merge (outcomes add acc t) r) [] terms.

Fixpoint reach (acc : list num) (stages : list (list num)) : list num :=
  match stages with
  | [] => acc
  | T :: rest => reach (stage acc T) rest
  end.

(** The terms [score * weight] of one factor. *)
Definition terms_of (values : list num) (w : num) : list num :=
  fold_right (fun t r => merge [t] r) [] (outcomes mul values w).

Definition value_lists : list (list num) :=
  [ volume_values; frequency_values; protocol_values; balance_values;
    failure_values; diversity_values; recent_values ].

Definition term_lists : list (list num) :=
  map (fun vw : list num * (string * num) => terms_of (fst vw) (snd (snd vw)))
      (combine value_lists weights).

(** Every value [weighted_sum] can return. *)
Definition weighted_sums : list num := reach [NInt 0] term_lists.

(** What is checked of each of them: it lies in [[0, 0.9675]], it scales
    and truncates to an integer [z] in [[0, 967]], and [z <= 1000 * ws
    < z + 1]. *)
Definition sum_ok (ws : num) : bool :=
  le (NInt 0) ws && le ws (NFloat 0.9675) &&
  match mul ws (NInt 1000) with
  | Ok scaled =>
      match int_of scaled with
      | Ok z =>
          (0 <=? z) && (z <=? 967) &&
          le (NInt z) scaled && lt scaled (NInt (z + 1))
      | Raise _ => false
      end
  | Raise _ => false
  end.

(** The [scores] dict of [calculate_risk_score], in insertion order. *)
Definition scores_dict (v f p b fl d r : num) : list (string * num) :=
  [ ("transaction_volume", v); ("transaction_frequency", f);
    ("protocol_experience", p); ("balance_stability", b);
    ("failure_rate", fl); ("counterparty_diversity", d);
    ("recent_activity", r) ].

(** The scores of a wallet whose two fallible scorers returned [b], [d]. *)
Definition scores_for (tm cd : gmap string num) (b d : num)
  : list (string * num) :=
  scores_dict (calculate_transaction_volume_score tm)
              (calculate_frequency_score tm)
              (calculate_protocol_experience_score cd)
              b
              (calculate_failure_rate_score tm)
              d
              (calculate_recent_activity_score tm).

(** What a returned assessment is made of: the two fallible scorers
    returned, the weighted sum is one of [weighted_sums], and the record
    holds the inputs unchanged. *)
Definition scored (w : string) (tm cd bd : gmap string num)
  (r : RiskAssessment) : Prop :=
  exists sb sd ws scaled : num,
    calculate_balance_stability_score bd tm = Ok sb /\
    calculate_counterparty_diversity_score tm = Ok sd /\
    weighted_sum (scores_for tm cd sb sd) = Ok ws /\
    In ws weighted_sums /\
    mul ws (NInt 1000) = Ok scaled /\
    int_of scaled = Ok (risk_score r) /\
    r = {| wallet_address := w;
           risk_score := risk_score r;
           risk_category := risk_category_of (risk_score r);
           component_scores := scores_for tm cd sb sd;
           weighted_score := Some ws;
           transaction_metrics := tm;
           compound_data := cd;
           balance_data := bd;
           error := None |}.

End Outcomes.

Import Outcomes.

(* ===================================================================== *)
(** * Concrete inputs                                                     *)
(* ===================================================================== *)

(** A number that converts to a float: any float, or an int below the
    overflow bound. *)
Definition convertible (n : num) : Prop :=
  match n with
  | NInt z => Z.abs z < float_overflow_bound
  | NFloat _ => True
  end.

(** The transactions whose [timeStamp] is present and truthy. *)
Definition stamped (txs : list (gmap string field))
  : list (gmap string field) :=
  List.filter (fun tx : gmap string field => truthy (tx !! "timeStamp")) txs.

(** The two shapes a positive int takes when it is rounded to a double:
    [rounded_positive] is [+inf] or a 53-bit mantissa at an exponent of at
    least [-52]; [exact_for p] is the double that holds [p] itself. *)
Definition rounded_positive (s : spec_float) : Prop :=
  s = S754_infinity false
  \/ exists m e, s = S754_finite false m e
                 /\ Z.pos (digits2_pos m) = 53 /\ -52 <= e <= 971.

Definition exact_for (p : positive) (s : spec_float) : Prop :=
  exists m e, s = S754_finite false m e
              /\ Z.pos (digits2_pos m) = 53 /\ -52 <= e <= 0
              /\ Z.pos m = Z.pos p * 2 ^ (- e).

Module Fixture.

(** The regression fixture of the specification. *)
Definition metrics : gmap string num :=
  <["total_value_eth" := NInt 5]>
  (<["transaction_frequency" := NFloat 0.05]>
  (<["unique_counterparties" := NInt 3]>
  (<["total_transactions" := NInt 20]>
  (<["failed_transaction_rate" := NFloat 0.0]>
  (<["time_span_days" := NInt 10]> ∅))))).

Definition compound : gmap string num := {[ "compound_count" := NInt 0 ]}.

Definition balance : gmap string num :=
  {[ "current_balance_eth" := NFloat 0.05 ]}.

Definition wallet : string := "0x742d35cc6634c0532925a3b844bc454e4438f44e".

Definition scores : list (string * num) :=
  scores_dict (NFloat 0.6) (NFloat 0.7) (NFloat 0.95) (NFloat 0.9)
              (NFloat 0.0) (NFloat 0.8) (NFloat 0.1).

Definition assessment : RiskAssessment :=
  {| wallet_address := wallet;
     risk_score := 682;
     risk_category := "High Risk";
     component_scores := scores;
     weighted_score := Some (NFloat 0.6825);
     transaction_metrics := metrics;
     compound_data := compound;
     balance_data := balance;
     error := None |}.

(** A wallet in the best bucket of every factor. *)
Definition best_metrics : gmap string num :=
  <["total_value_eth" := NInt 5000]>
  (<["transaction_frequency" := NFloat 2]>
  (<["unique_counterparties" := NInt 150]>
  (<["total_transactions" := NInt 900]>
  (<["failed_transaction_rate" := NInt 0]>
  (<["time_span_days" := NInt 7]> ∅))))).

Definition best_compound : gmap string num :=
  {[ "compound_count" := NInt 60 ]}.

Definition best_balance : gmap string num :=
  {[ "current_balance_eth" := NInt 1000 ]}.

Definition best_scores : list (string * num) :=
  scores_dict (NFloat 0.1) (NFloat 0.1) (NFloat 0.05) (NInt 0)
              (NFloat 0.0) (NFloat 0.05) (NFloat 0.1).

(** The order of the five category labels. *)
Definition category_rank (c : string) : nat :=
  if String.eqb c "Very Low Risk" then 0
  else if String.eqb c "Low Risk" then 1
  else if String.eqb c "Medium Risk" then 2
  else if String.eqb c "High Risk" then 3
  else 4.

End Fixture.

(** Concrete transaction records, as the provider delivers them. *)
Module Records.

Definition tx (value is_error to_ from_ time_stamp : string)
  : gmap string field :=
  <["value" := FStr value]>
  (<["isError" := FStr is_error]>
  (<["to" := FStr to_]>
  (<["from" := FStr from_]>
  (<["timeStamp" := FStr time_stamp]> ∅)))).

Definition tx1 : gmap string field :=
  tx "1000000000000000000" "0" "0xa" "0xb" "1600000000".
Definition tx2 : gmap string field :=
  tx "2500000000000000000" "1" "0xb" "0xc" "1600864000".
Definition tx3 : gmap string field :=
  tx "500000000000000000" "0" "0xa" "0xb" "1600003600".

(** The record the normalizer returns for [tx1; tx3; tx1]. *)
Definition metrics3 : gmap string num :=
  <["total_transactions" := NInt 3]>
  (<["avg_transaction_value" := NFloat 833333333333333376]>
  (<["transaction_frequency" := NFloat 3]>
  (<["failed_transactions" := NInt 0]>
  (<["failed_transaction_rate" := NFloat 0]>
  (<["unique_counterparties" := NInt 2]>
  (<["time_span_days" := NFloat 0.041666666666666664]>
  (<["total_value_eth" := NFloat 2.5]> ∅))))))).

(** A record with an empty [timeStamp] and no counterparties, and what
    the normalizer returns for it. *)
Definition tx_unstamped : gmap string field :=
  <["value" := FStr "7"]> (<["timeStamp" := FStr ""]> ∅).

Definition metrics_unstamped : gmap string num :=
  <["total_transactions" := NInt 1]>
  (<["avg_transaction_value" := NFloat 7]>
  (<["transaction_frequency" := NInt 0]>
  (<["failed_transactions" := NInt 0]>
  (<["failed_transaction_rate" := NFloat 0]>
  (<["unique_counterparties" := NInt 1]>
  (<["time_span_days" := NInt 0]>
  (<["total_value_eth" := NFloat 7e-18]> ∅))))))).

(** A field of a returned record; [None] if the call raised or the key
    is missing. *)
Definition field_of (r : result (gmap string num)) (k : string)
  : option num :=
  match r with
  | Ok m => m !! k
  | Raise _ => None
  end.

End Records.

(** A provider and a record store to run the pipeline on. *)
Module World.

(** Every wallet has the two transactions [tx1; tx2], three protocol
    interactions and a balance of 1.5. *)
Definition fetcher : DataFetcher :=
  {| get_wallet_transactions := fun _ => Success [Records.tx1; Records.tx2];
     get_compound_interactions :=
       fun _ => Ok (Success {[ "compound_count" := NInt 3 ]});
     get_wallet_balance_history :=
       fun _ => Success {[ "current_balance_eth" := NFloat 1.5 ]} |}.

(** A store in which the directory [temp_out] does not exist: writing
    below it raises, any other path is written. *)
Definition to_csv (rows : list Row) (path : string) : result unit :=
  if String.prefix "temp_out/" path
  then raise OSError
         "Cannot save file into a non-existent directory: 'temp_out'"
  else Ok tt.

Definition sleep (seconds : num) : result unit := Ok tt.

(** The same provider when the protocol-usage and the balance request
    both fail. *)
Definition fetcher_partial : DataFetcher :=
  {| get_wallet_transactions := fun _ => Success [Records.tx1; Records.tx2];
     get_compound_interactions := fun _ => Ok (Failure "Max rate limit reached");
     get_wallet_balance_history := fun _ => Failure "Connection timed out" |}.

(** The record the normalizer returns for [tx1; tx2]. *)
Definition metrics2 : gmap string num :=
  <["total_transactions" := NInt 2]>
  (<["avg_transaction_value" := NFloat 1.75e18]>
  (<["transaction_frequency" := NFloat 0.2]>
  (<["failed_transactions" := NInt 1]>
  (<["failed_transaction_rate" := NFloat 0.5]>
  (<["unique_counterparties" := NInt 3]>
  (<["time_span_days" := NFloat 10]>
  (<["total_value_eth" := NFloat 3.5]> ∅))))))).

Definition wallets : list string :=
  ["w1"; "w2"; "w3"; "w4"; "w5"; "w6"; "w7"; "w8"; "w9"; "w10"].

Definition run_batch (output_file : string) : list RiskAssessment :=
  batch_loop decimal_float decimal_int fetcher to_csv sleep
             output_file (NFloat 0.5) 1 wallets [].

End World.

(** The least risk score: every factor in its best bucket. *)
Definition sum_floor_ok (ws : num) : bool :=
  match mul ws (NInt 1000) with
  | Ok scaled =>
      match int_of scaled with
      | Ok z => 57 <=? z
      | Raise _ => false
      end
  | Raise _ => false
  end.


(** Further providers and stores. *)
Module World2.

(** A wallet without transactions. *)
Definition fetcher_empty : DataFetcher :=
  {| get_wallet_transactions := fun _ => Success [];
     get_compound_interactions :=
       fun _ => Ok (Success {[ "compound_count" := NInt 0 ]});
     get_wallet_balance_history :=
       fun _ => Success {[ "current_balance_eth" := NFloat 1.5 ]} |}.

(** A record whose [value] is not a number. *)
Definition tx_bad : gmap string field :=
  Records.tx "abc" "0" "0xa" "0xb" "1600000100".

Definition fetcher_malformed : DataFetcher :=
  {| get_wallet_transactions := fun _ => Success [Records.tx1; tx_bad];
     get_compound_interactions :=
       fun _ => Ok (Success {[ "compound_count" := NInt 0 ]});
     get_wallet_balance_history :=
       fun _ => Success {[ "current_balance_eth" := NFloat 1.5 ]} |}.


Definition to_csv_ok (rows : list Row) (path : string) : result unit := Ok tt.

Definition read_two (path : string) : result (list string) :=
  Ok ["w1"; "w2"].

Definition print_ok (rows : list Row) : result unit := Ok tt.

End World2.

(* ===================================================================== *)
(** * compound_data_fetcher.py: get_compound_interactions                 *)
(* ===================================================================== *)

Module Interactions.

Definition compound_v2_contracts : list (string * string) :=
  [ ("cDAI", "0x5d3a536e4d6dbd6114cc1ead35777bab948e3643");
    ("cUSDC", "0x39aa39c021dfbae8fac545936693ac917d5e7563");
    ("cUSDT", "0xf650c3d88d12db855b8bf7d11be6c55a4e07dcc9");
    ("cETH", "0x4ddc2d193948926d02f9b1fe9e1daa0718270ed5");
    ("cWBTC", "0xc11b1268c1a384e55c48c2391d8d480264a3a7f4");
    ("comptroller", "0x3d9819210a31b4961b30ef54be2aed79b9c9cd3b") ].

Definition compound_v3_contracts : list (string * string) :=
  [ ("cUSDCv3", "0xc3d688b66703497daa19211eedff47f25384cdc3");
    ("cWETHv3", "0xa17581a9e3356d9a858b789d68b4d866e593ae94") ].

(** [{**v2, **v3}.values()]: the keys of the two tables are distinct. *)
Definition all_compound_addresses : list string :=
  map snd (compound_v2_contracts ++ compound_v3_contracts).

(** [s.lower()] on ASCII text: the letters A-Z are mapped, every other
    byte is kept. *)
Definition lower_char (c : Ascii.ascii) : Ascii.ascii :=
  let n := Ascii.N_of_ascii c in
  if ((65 <=? n) && (n <=? 90))%N then Ascii.ascii_of_N (n + 32) else c.

Fixpoint lower (s : string) : string :=
  match s with
  | EmptyString => EmptyString
  | String c s' => String (lower_char c) (lower s')
  end.

(** [needle in hay] on strings. *)
Fixpoint contains (needle hay : string) : bool :=
  String.prefix needle hay
  || match hay with
     | EmptyString => false
     | String _ hay' => contains needle hay'
     end.

(** [to.lower() in [addr.lower() for addr in ...]] *)
Definition is_contract (to_ : string) : bool :=
  existsb (String.eqb (lower to_)) (map lower all_compound_addresses).

(** [any(addr.lower() in to.lower() for addr in ...)] *)
Definition mentions_contract (to_ : string) : bool :=
  existsb (fun addr => contains (lower addr) (lower to_))
          all_compound_addresses.

(** What a successful call returns. *)
Record summary := {
  compound_transactions : list (gmap string field);
  total_transactions : nat;
  compound_count : nat
}.

Section Filter.

(** The [AttributeError] of [.lower()] on a field that is an int; its
    identity plays no part below. *)
Variable int_has_no_lower : exn.

(** [tx[k].lower()] *)
Definition lower_item (tx : gmap string field) (k : string) : result string :=
  match tx !! k with
  | None => raise KeyError ("'" ++ k ++ "'")
  | Some (FStr s) => Ok (lower s)
  | Some (FInt _) => Raise int_has_no_lower
  end.

(** The two nested conditions of the loop body, for one record. *)
Definition is_interaction (wallet_address : string)
  (tx : gmap string field) : result bool :=
  let* to_ := lower_item tx "to" in
  let* outer :=
    if existsb (String.eqb to_) (map lower all_compound_addresses)
    then Ok true
    else
      let* from_ := lower_item tx "from" in
      Ok (String.eqb from_ (lower wallet_address)) in
  if outer
  then Ok (existsb (fun addr => contains (lower addr) to_)
                   all_compound_addresses)
  else Ok false.

(** The loop: records are visited in order and appended when selected. *)
Fixpoint select (wallet_address : string)
  (transactions : list (gmap string field))
  : result (list (gmap string field)) :=
  match transactions with
  | [] => Ok []
  | tx :: rest =>
      let* keep := is_interaction wallet_address tx in
      let* kept := select wallet_address rest in
      Ok (if keep then tx :: kept else kept)
  end.

(** [get_compound_interactions], given the answer of its call to
    [get_wallet_transactions]. *)
Definition get_compound_interactions (wallet_address : string)
  (tx_data : response (list (gmap string field)))
  : result (response summary) :=
  match tx_data with
  | Failure err => Ok (Failure err)
  | Success transactions =>
      let* compound_txs := select wallet_address transactions in
      Ok (Success {| compound_transactions := compound_txs;
                     total_transactions := length transactions;
                     compound_count := length compound_txs |})
  end.

End Filter.

(** Concrete records. *)
Definition to_cdai_upper : gmap string field :=
  <["to" := FStr "0x5D3A536E4D6DBD6114CC1EAD35777BAB948E3643"]>
  (<["from" := FStr "0xSomeoneElse"]> ∅).

Definition plain_transfer : gmap string field :=
  <["to" := FStr "0xfriend"]> (<["from" := FStr "0xME"]> ∅).

Definition no_recipient : gmap string field :=
  <["from" := FStr "0xme"]> ∅.

(** A stand-in for the exception of [.lower()] on an int, where a
    concrete value is needed. *)
Definition attribute_error : exn :=
  Exn TypeError "'int' object has no attribute 'lower'".

End Interactions.

(* ===================================================================== *)
(** * The order on Python numbers                                         *)
(* ===================================================================== *)

Section Order.

Lemma xle_trans (a b c : xreal) :
  xle a b = true -> xle b c = true -> xle a c = true.
Proof.
  destruct a as [| |p|], b as [| |q|], c as [| |r|]; simpl;
    try discriminate; try reflexivity.
  rewrite !Qle_bool_iff. apply Qle_trans.
Qed.

Lemma le_trans (a b c : num) :
  le a b = true -> le b c = true -> le a c = true.
Proof. apply xle_trans. Qed.

Lemma lt_le_trans (a b c : num) :
  lt a b = true -> le b c = true -> lt a c = true.
Proof.
  unfold lt, le, xlt. intros Hab Hbc.
  apply andb_true_iff in Hab as [Hab Hba].
  apply andb_true_iff. split.
  - eapply xle_trans; eassumption.
  - destruct (xle (value c) (value a)) eqn:Hca; [|reflexivity].
    rewrite (xle_trans _ _ _ Hbc Hca) in Hba. discriminate.
Qed.

(** A threshold test passed by [x] is passed by every [y >= x]. *)
Lemma ge_mono (t x y : num) :
  le x y = true -> ge x t = true -> ge y t = true.
Proof. unfold ge. intros Hxy Htx. exact (le_trans _ _ _ Htx Hxy). Qed.

Lemma gt_mono (t x y : num) :
  le x y = true -> gt x t = true -> gt y t = true.
Proof. unfold gt. intros Hxy Htx. exact (lt_le_trans _ _ _ Htx Hxy). Qed.

Lemma get_insert {V} (m : gmap string V) (k : string) (v d : V) :
  get (<[k := v]> m) k d = v.
Proof. unfold get. rewrite lookup_insert_eq. reflexivity. Qed.

End Order.

(** Case analysis on every threshold test of a bucket chain. *)
Ltac split_tests :=
  repeat match goal with
         | |- context [if ?b then _ else _] => destruct b eqn:?
         end.

(** Two bucket chains over [x <= y]: a test that [x] passes and [y]
    fails is impossible. *)
Ltac clash_tests Hxy :=
  match goal with
  | Hx : ge ?x ?t = true, Hy : ge ?y ?t = false |- _ =>
      rewrite (ge_mono t x y Hxy Hx) in Hy; discriminate Hy
  | Hx : gt ?x ?t = true, Hy : gt ?y ?t = false |- _ =>
      rewrite (gt_mono t x y Hxy Hx) in Hy; discriminate Hy
  end.

(* ===================================================================== *)
(** * Monotone factor scores                                              *)
(* ===================================================================== *)

Section Monotonicity.

Variables (metrics compound : gmap string num).

Lemma volume_score_antitone (x y : num) :
  le x y = true ->
  le (calculate_transaction_volume_score (<["total_value_eth" := y]> metrics))
     (calculate_transaction_volume_score (<["total_value_eth" := x]> metrics))
  = true.
Proof.
  intros Hxy. unfold calculate_transaction_volume_score.
  rewrite !get_insert. split_tests;
    solve [vm_compute; reflexivity | clash_tests Hxy].
Qed.

Lemma protocol_score_antitone (x y : num) :
  le x y = true ->
  le (calculate_protocol_experience_score (<["compound_count" := y]> compound))
     (calculate_protocol_experience_score (<["compound_count" := x]> compound))
  = true.
Proof.
  intros Hxy. unfold calculate_protocol_experience_score.
  rewrite !get_insert. split_tests;
    solve [vm_compute; reflexivity | clash_tests Hxy].
Qed.

Lemma diversity_score_antitone (x y sx sy : num) :
  le x y = true ->
  calculate_counterparty_diversity_score
    (<["unique_counterparties" := x]> metrics) = Ok sx ->
  calculate_counterparty_diversity_score
    (<["unique_counterparties" := y]> metrics) = Ok sy ->
  le sy sx = true.
Proof.
  intros Hxy. unfold calculate_counterparty_diversity_score.
  rewrite !get_insert.
  destruct (truediv x _); [|discriminate].
  destruct (truediv y _); [|discriminate].
  simpl. split_tests; intros [= <-] [= <-];
    solve [vm_compute; reflexivity | clash_tests Hxy].
Qed.

End Monotonicity.

(** C9: with every other input held fixed, the transaction-volume score
    never increases when [total_value_eth] grows, the protocol-experience
    score never increases when [compound_count] grows, and the
    counterparty-diversity score (whenever the scorer returns one) never
    increases when [unique_counterparties] grows. *)
Theorem factor_scores_antitone
  (metrics compound : gmap string num) (x y : num) (Hxy : le x y = true) :
  le (calculate_transaction_volume_score (<["total_value_eth" := y]> metrics))
     (calculate_transaction_volume_score (<["total_value_eth" := x]> metrics))
  = true
  /\ le (calculate_protocol_experience_score
           (<["compound_count" := y]> compound))
        (calculate_protocol_experience_score
           (<["compound_count" := x]> compound))
     = true
  /\ (forall sx sy,
        calculate_counterparty_diversity_score
          (<["unique_counterparties" := x]> metrics) = Ok sx ->
        calculate_counterparty_diversity_score
          (<["unique_counterparties" := y]> metrics) = Ok sy ->
        le sy sx = true).
Proof.
  split; [|split].
  - apply volume_score_antitone, Hxy.
  - apply protocol_score_antitone, Hxy.
  - intros sx sy. apply diversity_score_antitone, Hxy.
Qed.

Lemma factor_scores_antitone_witness :
  le (NInt 5) (NFloat 50) = true
  /\ le (calculate_transaction_volume_score
           (<["total_value_eth" := NFloat 50]> ∅))
        (calculate_transaction_volume_score
           (<["total_value_eth" := NInt 5]> ∅)) = true.
Proof.
  assert (H : le (NInt 5) (NFloat 50) = true) by (vm_compute; reflexivity).
  split; [exact H|].
  exact (proj1 (factor_scores_antitone ∅ ∅ (NInt 5) (NFloat 50) H)).
Defined.

(* ===================================================================== *)
(** * Soundness of the outcome enumeration                                *)
(* ===================================================================== *)

Section Enumeration.

Lemma num_eqb_eq (a b : num) : num_eqb a b = true -> a = b.
Proof.
  destruct a as [x|x], b as [y|y]; simpl; try discriminate.
  - intros H. apply Z.eqb_eq in H. congruence.
  - intros H. apply FloatAxioms.Leibniz.eqb_spec in H. congruence.
Qed.

Lemma merge_in (x : num) (l1 l2 : list num) :
  In x l1 \/ In x l2 -> In x (merge l1 l2).
Proof.
  revert l2. induction l1 as [|a l1 IH]; intros l2.
  - destruct l2; simpl; tauto.
  - induction l2 as [|b l2 IH2].
    + simpl. tauto.
    + change (merge (a :: l1) (b :: l2)) with
        (if num_eqb a b then a :: merge l1 l2
         else if num_ltb a b then a :: merge l1 (b :: l2)
         else b :: merge (a :: l1) l2).
      destruct (num_eqb a b) eqn:Hab.
      * apply num_eqb_eq in Hab. subst b.
        intros [[->|H]|[->|H]]; simpl; auto.
      * destruct (num_ltb a b).
        -- intros [[->|H]|H]; simpl; auto.
        -- intros [H|[->|H]]; simpl; auto.
Qed.

Lemma outcomes_in op (acc : list num) (a t s : num) :
  In a acc -> op a t = Ok s -> In s (outcomes op acc t).
Proof.
  intros Ha Hs. unfold outcomes. apply in_flat_map.
  exists a. split; [exact Ha|]. rewrite Hs. left. reflexivity.
Qed.

Lemma stage_in (acc terms : list num) (a t s : num) :
  In a acc -> In t terms -> add a t = Ok s -> In s (stage acc terms).
Proof.
  intros Ha Ht Hs. unfold stage.
  induction terms as [|t' terms IH]; [destruct Ht|].
  cbn [fold_right]. apply merge_in. destruct Ht as [->|Ht].
  - left. eapply outcomes_in; eassumption.
  - right. apply IH, Ht.
Qed.

Lemma reach_in (stages : list (list num)) :
  forall (ts acc : list num) (a s : num),
    In a acc ->
    Forall2 (fun t T => In t T) ts stages ->
    sum_from a ts = Ok s ->
    In s (reach acc stages).
Proof.
  induction stages as [|T stages IH]; intros ts acc a s Ha Hts Hs.
  - inversion Hts; subst. simpl in Hs. injection Hs as <-. exact Ha.
  - inversion Hts as [|t ? ts' ? Ht Hts']; subst. simpl in Hs.
    destruct (add a t) as [a'|] eqn:Ha'; [|discriminate].
    simpl in *. eapply IH; [|exact Hts'|exact Hs].
    eapply stage_in; eassumption.
Qed.

Lemma terms_of_in (values : list num) (w v t : num) :
  In v values -> mul v w = Ok t -> In t (terms_of values w).
Proof.
  intros Hv Ht. unfold terms_of.
  pose proof (outcomes_in mul values v w t Hv Ht) as Hin.
  induction (outcomes mul values w) as [|t' l IH]; [destruct Hin|].
  cbn [fold_right]. apply merge_in. destruct Hin as [->|Hin].
  - left. left. reflexivity.
  - right. apply IH, Hin.
Qed.

(** A term that raises leaves no sum to account for. *)
Ltac no_sum :=
  let H := fresh in intros _ _ _ _ _ _ _ H; discriminate H.

(** The seven score entries in the order [calculate_risk_score] fills
    them in. *)
Lemma weighted_sum_in (v f p b fl d r ws : num) :
  In v volume_values -> In f frequency_values -> In p protocol_values ->
  In b balance_values -> In fl failure_values -> In d diversity_values ->
  In r recent_values ->
  weighted_sum (scores_dict v f p b fl d r) = Ok ws ->
  In ws weighted_sums.
Proof.
  unfold weighted_sum, scores_dict. cbn [mapM fst snd].
  change (getitem weights "transaction_volume") with (Ok (NFloat 0.20)).
  change (getitem weights "transaction_frequency") with (Ok (NFloat 0.15)).
  change (getitem weights "protocol_experience") with (Ok (NFloat 0.25)).
  change (getitem weights "balance_stability") with (Ok (NFloat 0.15)).
  change (getitem weights "failure_rate") with (Ok (NFloat 0.10)).
  change (getitem weights "counterparty_diversity") with (Ok (NFloat 0.10)).
  change (getitem weights "recent_activity") with (Ok (NFloat 0.05)).
  cbn [bind].
  destruct (mul v (NFloat 0.20)) as [t1|] eqn:H1; cbn [bind]; [|no_sum].
  destruct (mul f (NFloat 0.15)) as [t2|] eqn:H2; cbn [bind]; [|no_sum].
  destruct (mul p (NFloat 0.25)) as [t3|] eqn:H3; cbn [bind]; [|no_sum].
  destruct (mul b (NFloat 0.15)) as [t4|] eqn:H4; cbn [bind]; [|no_sum].
  destruct (mul fl (NFloat 0.10)) as [t5|] eqn:H5; cbn [bind]; [|no_sum].
  destruct (mul d (NFloat 0.10)) as [t6|] eqn:H6; cbn [bind]; [|no_sum].
  destruct (mul r (NFloat 0.05)) as [t7|] eqn:H7; cbn [bind]; [|no_sum].
  intros Hv Hf Hp Hb Hfl Hd Hr Hs. unfold Py.sum in Hs. unfold weighted_sums.
  eapply (reach_in term_lists [t1; t2; t3; t4; t5; t6; t7]);
    [left; reflexivity| |exact Hs].
  unfold term_lists, value_lists, weights. cbn [combine map fst snd].
  repeat (apply List.Forall2_cons; [eapply terms_of_in; eassumption|]).
  apply List.Forall2_nil.
Qed.

Lemma weighted_sums_ok (ws : num) : In ws weighted_sums -> sum_ok ws = true.
Proof.
  assert (H : forallb sum_ok weighted_sums = true) by (vm_compute; reflexivity).
  intros Hin. rewrite forallb_forall in H. apply H, Hin.
Qed.

End Enumeration.

(* ===================================================================== *)
(** * The factor scorers                                                  *)
(* ===================================================================== *)

Section FactorScores.

Ltac pick := unfold In; tauto.

Lemma volume_score_in (m : gmap string num) :
  In (calculate_transaction_volume_score m) volume_values.
Proof.
  unfold calculate_transaction_volume_score, volume_values.
  split_tests; pick.
Qed.

Lemma frequency_score_in (m : gmap string num) :
  In (calculate_frequency_score m) frequency_values.
Proof.
  unfold calculate_frequency_score, frequency_values. split_tests; pick.
Qed.

Lemma protocol_score_in (cd : gmap string num) :
  In (calculate_protocol_experience_score cd) protocol_values.
Proof.
  unfold calculate_protocol_experience_score, protocol_values.
  split_tests; pick.
Qed.

Lemma failure_score_in (m : gmap string num) :
  In (calculate_failure_rate_score m) failure_values.
Proof.
  unfold calculate_failure_rate_score, failure_values. split_tests; pick.
Qed.

Lemma recent_score_in (m : gmap string num) :
  In (calculate_recent_activity_score m) recent_values.
Proof.
  unfold calculate_recent_activity_score, recent_values. split_tests; pick.
Qed.

Lemma base_score_in (balance : num) :
  In (balance_base_score balance) base_values.
Proof. unfold balance_base_score, base_values. split_tests; pick. Qed.

Lemma adjustment_in (ratio : num) :
  In (balance_adjustment ratio) adjustment_values.
Proof. unfold balance_adjustment, adjustment_values. split_tests; pick. Qed.

Lemma balance_score_in (bd m : gmap string num) (s : num) :
  calculate_balance_stability_score bd m = Ok s -> In s balance_values.
Proof.
  unfold calculate_balance_stability_score.
  destruct (truediv _ _) as [ratio|]; cbn [bind]; [|intros H; discriminate H].
  destruct (add _ _) as [adjusted|] eqn:Hadd; cbn [bind];
    [|intros H; discriminate H].
  intros H. injection H as <-. unfold balance_values.
  apply in_flat_map. eexists. split; [apply base_score_in|].
  apply in_flat_map. eexists. split; [apply adjustment_in|].
  unfold clamped. rewrite Hadd. left. reflexivity.
Qed.

Lemma diversity_score_in (m : gmap string num) (s : num) :
  calculate_counterparty_diversity_score m = Ok s -> In s diversity_values.
Proof.
  unfold calculate_counterparty_diversity_score, diversity_values.
  destruct (truediv _ _); cbn [bind]; [|intros H; discriminate H].
  split_tests; intros H; injection H as <-; pick.
Qed.

(** Every listed factor value lies in [[0, 1]]. *)
Lemma listed_values_in_unit (s : num) :
  In s (concat value_lists) -> le (NInt 0) s = true /\ le s (NInt 1) = true.
Proof.
  assert (H : forallb (fun s => le (NInt 0) s && le s (NInt 1))
                      (concat value_lists) = true) by (vm_compute; reflexivity).
  intros Hin. rewrite forallb_forall in H. apply H in Hin.
  apply andb_true_iff in Hin. exact Hin.
Qed.

End FactorScores.

(* ===================================================================== *)
(** * calculate_risk_score                                                *)
(* ===================================================================== *)

Section RiskScore.

Lemma sum_ok_facts (ws : num) :
  sum_ok ws = true ->
  exists scaled z,
    mul ws (NInt 1000) = Ok scaled /\ int_of scaled = Ok z /\
    le (NInt 0) ws = true /\ le ws (NFloat 0.9675) = true /\
    0 <= z <= 967 /\
    le (NInt z) scaled = true /\ lt scaled (NInt (z + 1)) = true.
Proof.
  unfold sum_ok. intros H.
  destruct (mul ws (NInt 1000)) as [scaled|] eqn:Hm;
    [|rewrite andb_false_r in H; discriminate H].
  destruct (int_of scaled) as [z|] eqn:Hz;
    [|rewrite andb_false_r in H; discriminate H].
  apply andb_true_iff in H as [H Hrest].
  apply andb_true_iff in H as [H0 H1].
  apply andb_true_iff in Hrest as [Hrest Hlt].
  apply andb_true_iff in Hrest as [Hrest Hle].
  apply andb_true_iff in Hrest as [Hz0 Hz1].
  apply Z.leb_le in Hz0, Hz1.
  exists scaled, z.
  split; [reflexivity|]. split; [exact Hz|]. split; [exact H0|].
  split; [exact H1|]. split; [split; assumption|].
  split; assumption.
Qed.

Lemma calculate_risk_score_inv (w : string) (tm cd bd : gmap string num)
  (r : RiskAssessment) :
  calculate_risk_score w tm cd bd = Ok r -> scored w tm cd bd r.
Proof.
  unfold calculate_risk_score.
  destruct (calculate_balance_stability_score bd tm) as [sb|] eqn:Hb;
    cbn [bind]; [|intros H; discriminate H].
  destruct (calculate_counterparty_diversity_score tm) as [sd|] eqn:Hd;
    cbn [bind]; [|intros H; discriminate H].
  change (assess w (scores_for tm cd sb sd) tm cd bd = Ok r -> scored w tm cd bd r).
  unfold assess.
  destruct (weighted_sum _) as [ws|] eqn:Hws; cbn [bind];
    [|intros H; discriminate H].
  destruct (mul ws _) as [scaled|] eqn:Hm; cbn [bind];
    [|intros H; discriminate H].
  destruct (int_of scaled) as [z|] eqn:Hz; cbn [bind];
    [|intros H; discriminate H].
  intros H. injection H as <-.
  exists sb, sd, ws, scaled.
  split; [exact Hb|]. split; [exact Hd|]. split; [exact Hws|].
  split; [|split; [exact Hm|split; [exact Hz|reflexivity]]].
  unfold scores_for in Hws. eapply weighted_sum_in; [..|exact Hws].
  - apply volume_score_in.
  - apply frequency_score_in.
  - apply protocol_score_in.
  - eapply balance_score_in, Hb.
  - apply failure_score_in.
  - eapply diversity_score_in, Hd.
  - apply recent_score_in.
Qed.

(** The aggregation never raises: once the two fallible scorers have
    returned, so does [calculate_risk_score]. *)
Lemma term_is_float (vals : list num) (w : float) :
  forallb (fun v => match mul v (NFloat w) with
                    | Ok (NFloat _) => true
                    | _ => false
                    end) vals = true ->
  forall v, In v vals -> exists t, mul v (NFloat w) = Ok (NFloat t).
Proof.
  intros H v Hv. rewrite forallb_forall in H. specialize (H v Hv).
  destruct (mul v (NFloat w)) as [[z|t]|]; try discriminate H.
  exists t. reflexivity.
Qed.

Lemma weighted_sum_returns (v f p b fl d r : num) :
  In v volume_values -> In f frequency_values -> In p protocol_values ->
  In b balance_values -> In fl failure_values -> In d diversity_values ->
  In r recent_values ->
  exists ws, weighted_sum (scores_dict v f p b fl d r) = Ok ws.
Proof.
  intros Hv Hf Hp Hb Hfl Hd Hr.
  apply (term_is_float _ 0.20) in Hv as [t1 H1]; [|vm_compute; reflexivity].
  apply (term_is_float _ 0.15) in Hf as [t2 H2]; [|vm_compute; reflexivity].
  apply (term_is_float _ 0.25) in Hp as [t3 H3]; [|vm_compute; reflexivity].
  apply (term_is_float _ 0.15) in Hb as [t4 H4]; [|vm_compute; reflexivity].
  apply (term_is_float _ 0.10) in Hfl as [t5 H5]; [|vm_compute; reflexivity].
  apply (term_is_float _ 0.10) in Hd as [t6 H6]; [|vm_compute; reflexivity].
  apply (term_is_float _ 0.05) in Hr as [t7 H7]; [|vm_compute; reflexivity].
  unfold weighted_sum, scores_dict. cbn [mapM fst snd].
  change (getitem weights "transaction_volume") with (Ok (NFloat 0.20)).
  change (getitem weights "transaction_frequency") with (Ok (NFloat 0.15)).
  change (getitem weights "protocol_experience") with (Ok (NFloat 0.25)).
  change (getitem weights "balance_stability") with (Ok (NFloat 0.15)).
  change (getitem weights "failure_rate") with (Ok (NFloat 0.10)).
  change (getitem weights "counterparty_diversity") with (Ok (NFloat 0.10)).
  change (getitem weights "recent_activity") with (Ok (NFloat 0.05)).
  cbn [bind]. rewrite H1, H2, H3, H4, H5, H6, H7. cbn [bind].
  eexists. reflexivity.
Qed.

Lemma calculate_risk_score_returns (w : string) (tm cd bd : gmap string num)
  (sb sd : num) :
  calculate_balance_stability_score bd tm = Ok sb ->
  calculate_counterparty_diversity_score tm = Ok sd ->
  exists r, calculate_risk_score w tm cd bd = Ok r.
Proof.
  intros Hb Hd. unfold calculate_risk_score. rewrite Hb, Hd. cbn [bind].
  change (exists r, assess w (scores_for tm cd sb sd) tm cd bd = Ok r).
  destruct (weighted_sum_returns
              (calculate_transaction_volume_score tm)
              (calculate_frequency_score tm)
              (calculate_protocol_experience_score cd) sb
              (calculate_failure_rate_score tm) sd
              (calculate_recent_activity_score tm)) as [ws Hws].
  - apply volume_score_in.
  - apply frequency_score_in.
  - apply protocol_score_in.
  - eapply balance_score_in, Hb.
  - apply failure_score_in.
  - eapply diversity_score_in, Hd.
  - apply recent_score_in.
  - assert (Hin : In ws weighted_sums).
    { eapply weighted_sum_in; [..|exact Hws].
      - apply volume_score_in.
      - apply frequency_score_in.
      - apply protocol_score_in.
      - eapply balance_score_in, Hb.
      - apply failure_score_in.
      - eapply diversity_score_in, Hd.
      - apply recent_score_in. }
    apply weighted_sums_ok, sum_ok_facts in Hin
      as (scaled & z & Hm & Hz & _).
    unfold assess, scores_for. rewrite Hws. cbn [bind].
    rewrite Hm. cbn [bind]. rewrite Hz. cbn [bind]. eexists. reflexivity.
Qed.

End RiskScore.

(* ===================================================================== *)
(** * Properties of the scoring engine                                    *)
(* ===================================================================== *)

(** C1 (code bug): on the metrics the normalizer returns for an empty
    transaction list, [calculate_risk_score] raises [ZeroDivisionError]:
    [total_transactions] is present with value 0, so the default 1 of
    [metrics.get] does not apply and [unique_counterparties /
    total_transactions] divides by zero. *)
Theorem empty_wallet_metrics_raise (w : string) :
  calculate_risk_score w empty_metrics default_compound_data
                       default_balance_data
  = Raise (Exn ZeroDivisionError "division by zero").
Proof. vm_compute. reflexivity. Qed.

(** C3: the seven weights sum to 1.0; whenever [calculate_risk_score]
    returns, it holds seven factor scores, each in [[0,1]], a weighted
    score in [[0,1]] and a risk score in [[0,1000]]; and the five scorers
    that cannot raise give a score in [[0,1]] on every input. *)
Theorem scores_in_range (w : string) (tm cd bd : gmap string num)
  (r : RiskAssessment) (Hret : calculate_risk_score w tm cd bd = Ok r) :
  Py.sum (map snd weights) = Ok (NFloat 1.0)
  /\ length (component_scores r) = 7%nat
  /\ Forall (fun kv : string * num =>
               le (NInt 0) (snd kv) = true /\ le (snd kv) (NInt 1) = true)
            (component_scores r)
  /\ (exists ws, weighted_score r = Some ws
                 /\ le (NInt 0) ws = true /\ le ws (NInt 1) = true)
  /\ 0 <= risk_score r <= 1000
  /\ Forall (fun s => le (NInt 0) s = true /\ le s (NInt 1) = true)
       [ calculate_transaction_volume_score tm;
         calculate_frequency_score tm;
         calculate_protocol_experience_score cd;
         calculate_failure_rate_score tm;
         calculate_recent_activity_score tm ].
Proof.
  apply calculate_risk_score_inv in Hret
    as (sb & sd & ws & scaled & Hb & Hd & Hws & Hin & Hm & Hz & ->).
  cbn [component_scores weighted_score risk_score].
  apply weighted_sums_ok, sum_ok_facts in Hin
    as (scaled' & z & Hm' & Hz' & H0 & H1 & Hzr & _).
  rewrite Hm in Hm'. injection Hm' as <-.
  rewrite Hz in Hz'. injection Hz' as Hzeq.
  assert (Hunit : forall s l, In l value_lists -> In s l ->
                    le (NInt 0) s = true /\ le s (NInt 1) = true).
  { intros s l Hl Hs. apply listed_values_in_unit.
    apply in_concat. exists l. split; assumption. }
  assert (Hv := Hunit _ volume_values (or_introl Logic.eq_refl)
                  (volume_score_in tm)).
  assert (Hf := Hunit _ frequency_values
                  (or_intror (or_introl Logic.eq_refl))
                  (frequency_score_in tm)).
  assert (Hp := Hunit _ protocol_values
                  (or_intror (or_intror (or_introl Logic.eq_refl)))
                  (protocol_score_in cd)).
  assert (Hbal := Hunit _ balance_values
                  (or_intror (or_intror (or_intror (or_introl Logic.eq_refl))))
                  (balance_score_in _ _ _ Hb)).
  assert (Hfl := Hunit _ failure_values
                  (or_intror (or_intror (or_intror (or_intror
                     (or_introl Logic.eq_refl)))))
                  (failure_score_in tm)).
  assert (Hdv := Hunit _ diversity_values
                  (or_intror (or_intror (or_intror (or_intror (or_intror
                     (or_introl Logic.eq_refl))))))
                  (diversity_score_in _ _ Hd)).
  assert (Hrc := Hunit _ recent_values
                  (or_intror (or_intror (or_intror (or_intror (or_intror
                     (or_intror (or_introl Logic.eq_refl)))))))
                  (recent_score_in tm)).
  clear Hunit.
  split; [vm_compute; reflexivity|].
  split; [reflexivity|].
  split; [unfold scores_for, scores_dict; repeat apply List.Forall_cons;
          try apply List.Forall_nil; assumption|].
  split.
  { exists ws. split; [reflexivity|]. split; [exact H0|].
    apply (le_trans _ _ _ H1). vm_compute. reflexivity. }
  split; [lia|].
  repeat apply List.Forall_cons; try apply List.Forall_nil; assumption.
Qed.

Lemma scores_in_range_witness :
  calculate_risk_score Fixture.wallet Fixture.metrics Fixture.compound
                       Fixture.balance = Ok Fixture.assessment
  /\ 0 <= risk_score Fixture.assessment <= 1000.
Proof.
  assert (H : calculate_risk_score Fixture.wallet Fixture.metrics
                Fixture.compound Fixture.balance = Ok Fixture.assessment)
    by (vm_cast_no_check (@Logic.eq_refl _ (Ok Fixture.assessment))).
  split; [exact H|].
  exact (proj1 (proj2 (proj2 (proj2 (proj2
           (scores_in_range _ _ _ _ _ H)))))).
Defined.

Section Categories.

Lemma risk_category_of_cases (s : Z) :
  (s <= 200 /\ risk_category_of s = "Very Low Risk")
  \/ (200 < s <= 400 /\ risk_category_of s = "Low Risk")
  \/ (400 < s <= 600 /\ risk_category_of s = "Medium Risk")
  \/ (600 < s <= 800 /\ risk_category_of s = "High Risk")
  \/ (800 < s /\ risk_category_of s = "Very High Risk").
Proof.
  unfold risk_category_of.
  destruct (Z.leb_spec s 200); [left; split; [lia|reflexivity]|right].
  destruct (Z.leb_spec s 400); [left; split; [lia|reflexivity]|right].
  destruct (Z.leb_spec s 600); [left; split; [lia|reflexivity]|right].
  destruct (Z.leb_spec s 800); [left; split; [lia|reflexivity]|right].
  split; [lia|reflexivity].
Qed.

Lemma risk_category_monotone (s1 s2 : Z) :
  s1 <= s2 ->
  (Fixture.category_rank (risk_category_of s1)
   <= Fixture.category_rank (risk_category_of s2))%nat.
Proof.
  intros Hle.
  destruct (risk_category_of_cases s1) as [[? ->]|[[? ->]|[[? ->]|[[? ->]|[? ->]]]]];
  destruct (risk_category_of_cases s2) as [[? ->]|[[? ->]|[[? ->]|[[? ->]|[? ->]]]]];
  solve [lia | vm_compute; lia].
Qed.

End Categories.

(** C4: whenever [calculate_risk_score] returns, [risk_score] is
    [int(weighted_score * 1000)], the truncation toward zero of that
    non-negative product ([risk_score <= weighted_score * 1000 <
    risk_score + 1]), and [risk_category] is the monotone step function of
    [risk_score] with inclusive upper bounds 200, 400, 600 and 800; 200 and
    201, 400 and 401, 600 and 601, 800 and 801 get different labels. *)
Theorem risk_score_and_category (w : string) (tm cd bd : gmap string num)
  (r : RiskAssessment) (Hret : calculate_risk_score w tm cd bd = Ok r) :
  (exists ws scaled,
      weighted_score r = Some ws
      /\ mul ws (NInt 1000) = Ok scaled
      /\ int_of scaled = Ok (risk_score r)
      /\ 0 <= risk_score r
      /\ le (NInt (risk_score r)) scaled = true
      /\ lt scaled (NInt (risk_score r + 1)) = true)
  /\ risk_category r = risk_category_of (risk_score r)
  /\ (forall s,
        (s <= 200 -> risk_category_of s = "Very Low Risk")
        /\ (200 < s <= 400 -> risk_category_of s = "Low Risk")
        /\ (400 < s <= 600 -> risk_category_of s = "Medium Risk")
        /\ (600 < s <= 800 -> risk_category_of s = "High Risk")
        /\ (800 < s -> risk_category_of s = "Very High Risk"))
  /\ (forall s1 s2, s1 <= s2 ->
        (Fixture.category_rank (risk_category_of s1)
         <= Fixture.category_rank (risk_category_of s2))%nat)
  /\ map risk_category_of [200; 201; 400; 401; 600; 601; 800; 801]
     = [ "Very Low Risk"; "Low Risk"; "Low Risk"; "Medium Risk";
         "Medium Risk"; "High Risk"; "High Risk"; "Very High Risk" ].
Proof.
  apply calculate_risk_score_inv in Hret
    as (sb & sd & ws & scaled & Hb & Hd & Hws & Hin & Hm & Hz & ->).
  cbn [weighted_score risk_score risk_category] in *.
  apply weighted_sums_ok, sum_ok_facts in Hin
    as (scaled' & z & Hm' & Hz' & _ & _ & Hzr & Hlo & Hhi).
  rewrite Hm in Hm'. injection Hm' as <-.
  rewrite Hz in Hz'. injection Hz' as <-.
  split; [|split; [reflexivity|split; [|split]]].
  - exists ws, scaled. repeat split; try assumption. lia.
  - intros s.
    destruct (risk_category_of_cases s)
      as [[? ->]|[[? ->]|[[? ->]|[[? ->]|[? ->]]]]];
      repeat split; intros; solve [reflexivity | lia].
  - exact risk_category_monotone.
  - reflexivity.
Qed.

Lemma risk_score_and_category_witness :
  calculate_risk_score Fixture.wallet Fixture.metrics Fixture.compound
                       Fixture.balance = Ok Fixture.assessment
  /\ risk_category Fixture.assessment
     = risk_category_of (risk_score Fixture.assessment).
Proof.
  assert (H : calculate_risk_score Fixture.wallet Fixture.metrics
                Fixture.compound Fixture.balance = Ok Fixture.assessment)
    by (vm_cast_no_check (@Logic.eq_refl _ (Ok Fixture.assessment))).
  split; [exact H|].
  exact (proj1 (proj2 (risk_score_and_category _ _ _ _ _ H))).
Defined.

(** C7: on the regression fixture the engine returns the factor scores
    0.6, 0.7, 0.95, 0.9, 0.0, 0.8, 0.1, the weighted score 0.6825, the
    risk score 682 and the category "High Risk"; the balance score is the
    base 0.9 with adjustment 0, the ratio 0.05 / 5 being the double 0.01,
    which is not strictly below 0.01. *)
Theorem regression_fixture (w : string) :
  calculate_risk_score w Fixture.metrics Fixture.compound Fixture.balance
  = Ok {| wallet_address := w;
          risk_score := 682;
          risk_category := "High Risk";
          component_scores :=
            [ ("transaction_volume", NFloat 0.6);
              ("transaction_frequency", NFloat 0.7);
              ("protocol_experience", NFloat 0.95);
              ("balance_stability", NFloat 0.9);
              ("failure_rate", NFloat 0.0);
              ("counterparty_diversity", NFloat 0.8);
              ("recent_activity", NFloat 0.1) ];
          weighted_score := Some (NFloat 0.6825);
          transaction_metrics := Fixture.metrics;
          compound_data := Fixture.compound;
          balance_data := Fixture.balance;
          error := None |}
  /\ balance_base_score (NFloat 0.05) = NFloat 0.9
  /\ truediv (NFloat 0.05) (max2 (NInt 5) (NFloat 0.001)) = Ok (NFloat 0.01)
  /\ lt (NFloat 0.01) (NFloat 0.01) = false
  /\ gt (NFloat 0.01) (NFloat 0.1) = false
  /\ balance_adjustment (NFloat 0.01) = NInt 0
  /\ calculate_balance_stability_score Fixture.balance Fixture.metrics
     = Ok (NFloat 0.9).
Proof.
  split; [vm_cast_no_check
            (@Logic.eq_refl (result RiskAssessment)
               (calculate_risk_score w Fixture.metrics Fixture.compound
                                     Fixture.balance))|].
  vm_compute. repeat split; reflexivity.
Qed.

(** C10: whenever [calculate_risk_score] returns, the weighted score is
    at most 0.9675 and the risk score at most 967; the error placeholder
    has risk score 999, so a scored record and an error record never share
    a risk score (and only the error record has an [error]). *)
Theorem scored_below_error_placeholder (w : string)
  (tm cd bd : gmap string num) (r : RiskAssessment)
  (Hret : calculate_risk_score w tm cd bd = Ok r) :
  (exists ws, weighted_score r = Some ws /\ le ws (NFloat 0.9675) = true)
  /\ risk_score r <= 967
  /\ error r = None
  /\ forall w' msg,
       risk_score (_create_error_result w' msg) = 999
       /\ error (_create_error_result w' msg) = Some msg
       /\ risk_score r <> risk_score (_create_error_result w' msg).
Proof.
  apply calculate_risk_score_inv in Hret
    as (sb & sd & ws & scaled & Hb & Hd & Hws & Hin & Hm & Hz & ->).
  cbn [weighted_score risk_score error] in *.
  apply weighted_sums_ok, sum_ok_facts in Hin
    as (scaled' & z & Hm' & Hz' & _ & H1 & Hzr & _).
  rewrite Hm in Hm'. injection Hm' as <-.
  rewrite Hz in Hz'. injection Hz' as <-.
  split; [exists ws; split; [reflexivity|exact H1]|].
  split; [lia|]. split; [reflexivity|].
  intros w' msg. cbn [_create_error_result risk_score error].
  split; [reflexivity|]. split; [reflexivity|]. lia.
Qed.

Lemma scored_below_error_placeholder_witness :
  calculate_risk_score Fixture.wallet Fixture.metrics Fixture.compound
                       Fixture.balance = Ok Fixture.assessment
  /\ risk_score Fixture.assessment <= 967.
Proof.
  assert (H : calculate_risk_score Fixture.wallet Fixture.metrics
                Fixture.compound Fixture.balance = Ok Fixture.assessment)
    by (vm_cast_no_check (@Logic.eq_refl _ (Ok Fixture.assessment))).
  split; [exact H|].
  exact (proj1 (proj2 (scored_below_error_placeholder _ _ _ _ _ H))).
Defined.

(** The bound of C10 is attained: a wallet in the worst bucket of every
    factor scores exactly 967. *)
Example worst_wallet_scores_967 :
  forall w,
    option_map risk_score
      (match calculate_risk_score w
               (<["total_transactions" := NInt 4]>
                (<["time_span_days" := NInt 400]>
                 (<["failed_transaction_rate" := NFloat 0.5]> ∅)))
               ∅ ∅ with
       | Ok r => Some r
       | Raise _ => None
       end) = Some 967.
Proof. intros w. vm_compute. reflexivity. Qed.

(* ===================================================================== *)
(** * The metrics normalizer                                              *)
(* ===================================================================== *)

Section NormalizerFacts.

Variable float_of_str : string -> result float.
Variable int_of_str : string -> result Z.

Local Abbreviation analyze := (analyze_transaction_patterns float_of_str int_of_str).

Lemma mapM_length {A B} (f : A -> result B) (l : list A) (l' : list B) :
  mapM f l = Ok l' -> length l' = length l.
Proof.
  revert l'. induction l as [|x l IH]; intros l'; cbn [mapM].
  - intros H. injection H as <-. reflexivity.
  - destruct (f x); cbn [bind]; [|intros H; discriminate H].
    destruct (mapM f l); cbn [bind]; [|intros H; discriminate H].
    intros H. injection H as <-. cbn [length]. f_equal. apply IH. reflexivity.
Qed.

(** What a returned record of a non-empty list holds. *)
Lemma analyze_nonempty_inv (txs : list (gmap string field))
  (m : gmap string num) :
  txs <> [] ->
  analyze txs = Ok m ->
  exists (avg span freq rate volume : num) (timestamps : list Z),
    mapM (fun tx => int_of_field int_of_str (get tx "timeStamp" (FInt 0)))
         (stamped txs) = Ok timestamps
    /\ match timestamps with
       | [] => span = NInt 0 /\ freq = NInt 0
       | _ :: _ =>
           truediv (NInt (max_list timestamps - min_list timestamps))
                   (NInt 86400) = Ok span
           /\ truediv (NInt (Z.of_nat (length txs))) (max2 span (NInt 1))
              = Ok freq
       end
    /\ truediv (NInt (Z.of_nat (length (filter
                  (fun tx : gmap string field =>
                     tx !! "isError" = Some (FStr "1")) txs))))
               (NInt (Z.of_nat (length txs))) = Ok rate
    /\ m !! "total_transactions" = Some (NInt (Z.of_nat (length txs)))
    /\ m !! "avg_transaction_value" = Some avg
    /\ m !! "transaction_frequency" = Some freq
    /\ m !! "failed_transaction_rate" = Some rate
    /\ m !! "time_span_days" = Some span
    /\ m !! "total_value_eth" = Some volume
    /\ m !! "failed_transactions"
       = Some (NInt (Z.of_nat (length (filter
                  (fun tx : gmap string field =>
                     tx !! "isError" = Some (FStr "1")) txs))))
    /\ m !! "unique_counterparties"
       = Some (NInt (Z.of_nat (length (remove_dups
            (flat_map (fun tx => [get tx "to" (FStr "");
                                  get tx "from" (FStr "")]) txs)))))
    /\ exists total, truediv total (NInt (10 ^ 18)) = Ok volume.
Proof.
  intros Hne.
  assert (Hpos : (0 <? Z.of_nat (length txs)) = true).
  { apply Z.ltb_lt. destruct txs; [congruence|]. cbn [length]. lia. }
  replace (analyze txs) with (analyze_nonempty float_of_str int_of_str txs)
    by (destruct txs; [congruence|reflexivity]).
  unfold analyze_nonempty. fold (stamped txs). rewrite Hpos.
  set (rate_c := truediv (NInt (Z.of_nat (length (filter _ txs))))
                         (NInt (Z.of_nat (length txs)))).
  destruct (mapM _ txs) as [values|]; cbn [bind]; [|intros H; discriminate H].
  destruct (Py.sum _) as [total|]; cbn [bind]; [|intros H; discriminate H].
  destruct (truediv total _) as [avg|]; cbn [bind];
    [|intros H; discriminate H].
  destruct (mapM _ (stamped txs)) as [timestamps|] eqn:Hts; cbn [bind];
    [|intros H; discriminate H].
  destruct timestamps as [|t0 ts].
  - cbn [bind fst snd].
    destruct rate_c as [rate|] eqn:Hrate; cbn [bind];
      [|intros H; discriminate H].
    destruct (truediv total _) as [volume|] eqn:Hvol; cbn [bind];
      [|intros H; discriminate H].
    intros H. injection H as <-.
    exists avg, (NInt 0), (NInt 0), rate, volume, [].
    split; [reflexivity|]. split; [split; reflexivity|].
    split; [first [reflexivity|exact Hrate]|]. repeat split; try reflexivity.
    exists total. exact Hvol.
  - change (24 * 3600) with 86400.
    destruct (truediv (NInt (max_list _ - _)) _) as [span|] eqn:Hspan;
      cbn [bind]; [|intros H; discriminate H].
    destruct (truediv (NInt _) (max2 span _)) as [freq|] eqn:Hfreq;
      cbn [bind fst snd]; [|intros H; discriminate H].
    destruct rate_c as [rate|] eqn:Hrate; cbn [bind];
      [|intros H; discriminate H].
    destruct (truediv total _) as [volume|] eqn:Hvol; cbn [bind];
      [|intros H; discriminate H].
    intros H. injection H as <-.
    exists avg, span, freq, rate, volume, (t0 :: ts).
    split; [reflexivity|].
    split; [split; first [reflexivity|exact Hspan|exact Hfreq]|].
    split; [first [reflexivity|exact Hrate]|]. repeat split; try reflexivity.
    exists total. exact Hvol.
Qed.

End NormalizerFacts.

Section FloatOne.

Lemma digits2_pos_pow2 (p : positive) :
  digits2_pos (Pos.pow 2 p) = Pos.succ p.
Proof.
  induction p as [|p IH] using Pos.peano_ind.
  - reflexivity.
  - rewrite Pos.pow_succ_r.
    change (digits2_pos (2 * Pos.pow 2 p))
      with (Pos.succ (digits2_pos (Pos.pow 2 p))).
    rewrite IH. reflexivity.
Qed.

(** The only double that compares equal to the int 1 is [1.0]. *)
Lemma float_eq_one (f : float) : eq (NFloat f) (NInt 1) = true -> f = 1%float.
Proof.
  unfold eq, value, value_of_float. intros H.
  pose proof (Prim2SF_valid f) as Hvalid.
  rewrite <- (SF2Prim_Prim2SF f).
  destruct (Prim2SF f) as [s|s| |s m e]; cbn in H; try discriminate H.
  - destruct s; discriminate H.
  - apply Qeq_bool_iff in H. unfold valid_binary, bounded in Hvalid.
    apply andb_true_iff in Hvalid as [Hcanon _].
    unfold canonical_mantissa in Hcanon. apply Z.eqb_eq in Hcanon.
    destruct e as [|p|p]; unfold dyadic in H.
    + unfold Qeq in H. cbn in H. destruct s; cbn in H; try lia.
      assert (m = 1%positive) by lia. subst m. vm_compute in Hcanon.
      discriminate Hcanon.
    + unfold Qeq in H. cbn [Qnum Qden inject_Z] in H.
      rewrite Z.pow_pos_fold in H.
      assert (2 <= 2 ^ Z.pos p) by
        (change 2 with (2 ^ 1) at 1; apply Z.pow_le_mono_r; lia).
      destruct s; cbn [cond_Zopp] in H; nia.
    + unfold Qeq in H. cbn [Qnum Qden inject_Z] in H.
      destruct s; cbn [cond_Zopp] in H; try lia.
      assert (m = Pos.pow 2 p) by lia. subst m.
      rewrite digits2_pos_pow2 in Hcanon.
      assert (p = 52%positive).
      { unfold fexp, SpecFloat.emin in Hcanon.
        change prec with 53 in Hcanon. change emax with 1024 in Hcanon.
        lia. }
      subst p. vm_compute. reflexivity.
Qed.

Lemma xle_antisym_eq (a b : xreal) :
  xle a b = true -> xle b a = true -> xeq a b = true.
Proof.
  destruct a as [| |p|], b as [| |q|]; cbn; try discriminate; try reflexivity.
  rewrite !Qle_bool_iff, Qeq_bool_iff. apply Qle_antisym.
Qed.

End FloatOne.

(** ** Rounding a positive int to a double *)

Section Rounding.

Lemma fexp_eq (e : Z) : fexp prec emax e = Z.max (e - 53) (-1074).
Proof. reflexivity. Qed.

Lemma digits2_pos_size (p : positive) : digits2_pos p = Pos.size p.
Proof. induction p as [p IH|p IH|]; cbn; rewrite ?IH; reflexivity. Qed.

Lemma digits_log2 (p : positive) :
  Z.pos (digits2_pos p) = Z.log2 (Z.pos p) + 1.
Proof.
  rewrite digits2_pos_size.
  destruct p as [p|p|]; cbn [Z.log2 Pos.size]; lia.
Qed.

Lemma digits_bounds (p : positive) :
  2 ^ (Z.pos (digits2_pos p) - 1) <= Z.pos p < 2 ^ Z.pos (digits2_pos p).
Proof.
  rewrite digits_log2.
  replace (Z.log2 (Z.pos p) + 1 - 1) with (Z.log2 (Z.pos p)) by lia.
  apply Z.log2_spec. lia.
Qed.

Lemma digits_unique (p : positive) (d : Z) :
  2 ^ (d - 1) <= Z.pos p < 2 ^ d -> Z.pos (digits2_pos p) = d.
Proof.
  intros [Hlo Hhi]. rewrite digits_log2.
  assert (0 < d).
  { destruct (Z.lt_trichotomy d 0) as [Hd|[->|Hd]]; [|cbn in Hhi; lia|lia].
    rewrite Z.pow_neg_r in Hhi by lia. lia. }
  assert (Z.log2 (Z.pos p) = d - 1); [|lia].
  apply Z.log2_unique; [lia|].
  replace (Z.succ (d - 1)) with d by lia. lia.
Qed.

Lemma pos_iter_xO (p k : positive) :
  Z.pos (Pos.iter xO p k) = Z.pos p * 2 ^ Z.pos k.
Proof.
  induction k as [|k IH] using Pos.peano_ind.
  - cbn. lia.
  - rewrite Pos.iter_succ, Pos2Z.inj_xO, IH, Pos2Z.inj_succ, Z.pow_succ_r by lia.
    lia.
Qed.

(** A mantissa of exactly 53 bits is already rounded. *)
Lemma round_aux_53 (m : positive) (e : Z) :
  Z.pos (digits2_pos m) = 53 -> -1074 <= e ->
  binary_round_aux prec emax false (Z.pos m) e loc_Exact
  = if e <=? 971 then S754_finite false m e else S754_infinity false.
Proof.
  intros Hd He. unfold binary_round_aux, shr_fexp.
  cbn [Zdigits2]. rewrite Hd, fexp_eq.
  replace (Z.max (53 + e - 53) (-1074) - e) with 0 by lia.
  cbn [shr shr_record_of_loc shr_m loc_of_shr_record round_nearest_even
       Zdigits2].
  rewrite Hd, fexp_eq.
  replace (Z.max (53 + e - 53) (-1074) - e) with 0 by lia.
  cbn [shr shr_record_of_loc shr_m]. reflexivity.
Qed.

(** One more bit that is zero is dropped without rounding. *)
Lemma round_aux_54 (m : positive) (e : Z) :
  Z.pos (digits2_pos m) = 53 -> -1074 <= e ->
  binary_round_aux prec emax false (Z.pos m~0) (e - 1) loc_Exact
  = if e <=? 971 then S754_finite false m e else S754_infinity false.
Proof.
  intros Hd He. unfold binary_round_aux, shr_fexp.
  cbn [Zdigits2 digits2_pos]. rewrite Pos2Z.inj_succ, Hd, fexp_eq.
  replace (Z.max (Z.succ 53 + (e - 1) - 53) (-1074) - (e - 1)) with 1 by lia.
  unfold shr, SpecFloat.iter_pos.
  cbn [shr_record_of_loc shr_1 orb shr_m loc_of_shr_record
       round_nearest_even Zdigits2].
  replace (e - 1 + 1) with e by lia.
  rewrite Hd, fexp_eq.
  replace (Z.max (53 + e - 53) (-1074) - e) with 0 by lia.
  cbn [shr_m]. reflexivity.
Qed.

Lemma iter_pos_comm {A} (f : A -> A) (k : positive) (x : A) :
  SpecFloat.iter_pos f k (f x) = f (SpecFloat.iter_pos f k x).
Proof.
  revert x. induction k as [k IH|k IH|]; intros x; cbn.
  - rewrite !IH. reflexivity.
  - rewrite !IH. reflexivity.
  - reflexivity.
Qed.

Lemma iter_pos_iter {A} (f : A -> A) (k : positive) (x : A) :
  SpecFloat.iter_pos f k x = Pos.iter f x k.
Proof.
  revert x. induction k as [k IH|k IH|]; intros x; cbn.
  - rewrite iter_pos_comm, iter_pos_comm, !IH. reflexivity.
  - rewrite !IH. reflexivity.
  - reflexivity.
Qed.

Lemma shr_1_m (r : shr_record) :
  0 <= shr_m r -> shr_m (shr_1 r) = shr_m r / 2.
Proof.
  destruct r as [m r s]. cbn [shr_m]. intros Hm.
  destruct m as [|[p|p|]|p]; cbn [shr_1 shr_m]; try reflexivity; try lia.
  - apply Z.div_unique with 1; lia.
  - apply Z.div_unique with 0; lia.
Qed.

Lemma shr_iter_m (k : positive) (r : shr_record) :
  0 <= shr_m r ->
  shr_m (SpecFloat.iter_pos shr_1 k r) = shr_m r / 2 ^ Z.pos k.
Proof.
  intros Hm. rewrite iter_pos_iter.
  induction k as [|k IH] using Pos.peano_ind.
  - cbn [Pos.iter]. rewrite shr_1_m by exact Hm. reflexivity.
  - rewrite Pos.iter_succ, shr_1_m.
    + rewrite IH, Pos2Z.inj_succ, Z.pow_succ_r by lia.
      rewrite Z.div_div by lia. f_equal. lia.
    + rewrite IH. apply Z.div_pos; lia.
Qed.

Lemma round_nearest_even_cases (m : Z) (l : location) :
  round_nearest_even m l = m \/ round_nearest_even m l = m + 1.
Proof.
  destruct l as [|[]]; cbn; auto. destruct (Z.even m); auto.
Qed.

(** A longer mantissa is cut to 53 bits, at an exponent of at least 1. *)
Lemma round_aux_long (p : positive) :
  54 <= Z.pos (digits2_pos p) ->
  exists m e,
    binary_round_aux prec emax false (Z.pos p) 0 loc_Exact
    = (if e <=? 971 then S754_finite false m e else S754_infinity false)
    /\ Z.pos (digits2_pos m) = 53 /\ 1 <= e.
Proof.
  intros Hd. pose proof (digits_bounds p) as Hp.
  set (d := Z.pos (digits2_pos p)) in *.
  unfold binary_round_aux, shr_fexp at 1. cbn [Zdigits2]. fold d.
  rewrite fexp_eq.
  replace (Z.max (d + 0 - 53) (-1074) - 0) with (d - 53) by lia.
  destruct (d - 53) as [|k|k] eqn:Hk; try lia.
  cbn [shr shr_record_of_loc].
  set (r := SpecFloat.iter_pos shr_1 k _).
  assert (Hm : shr_m r = Z.pos p / 2 ^ Z.pos k)
    by (unfold r; rewrite shr_iter_m; cbn [shr_m]; [reflexivity|lia]).
  assert (Hpow : 2 ^ d = 2 ^ 53 * 2 ^ Z.pos k).
  { rewrite <- Z.pow_add_r by lia. f_equal. lia. }
  assert (Hpow' : 2 ^ (d - 1) = 2 ^ 52 * 2 ^ Z.pos k).
  { rewrite <- Z.pow_add_r by lia. f_equal. lia. }
  assert (H2k : 0 < 2 ^ Z.pos k) by (apply Z.pow_pos_nonneg; lia).
  assert (Hrange : 2 ^ 52 <= shr_m r < 2 ^ 53).
  { rewrite Hm. split.
    - apply Z.div_le_lower_bound; lia.
    - apply Z.div_lt_upper_bound; lia. }
  set (m1 := round_nearest_even (shr_m r) (loc_of_shr_record r)).
  assert (Hm1 : 2 ^ 52 <= m1 < 2 ^ 53 \/ m1 = 2 ^ 53).
  { unfold m1.
    destruct (round_nearest_even_cases (shr_m r) (loc_of_shr_record r))
      as [-> | ->]; lia. }
  destruct Hm1 as [Hm1 | Hm1].
  - destruct m1 as [|q|q] eqn:Hq; try lia.
    assert (Hdq : Z.pos (digits2_pos q) = 53)
      by (apply digits_unique; exact Hm1).
    exists q, (0 + Z.pos k). split; [|split; [exact Hdq|lia]].
    unfold shr_fexp. cbn [Zdigits2].
    rewrite Hdq, fexp_eq.
    replace (Z.max (53 + (0 + Z.pos k) - 53) (-1074) - (0 + Z.pos k))
      with 0 by lia.
    cbn [shr shr_record_of_loc shr_m]. reflexivity.
  - rewrite Hm1. exists (Pos.pow 2 52), (0 + Z.pos k + 1).
    split; [|split; [vm_compute; reflexivity|lia]].
    unfold shr_fexp.
    change (Zdigits2 (2 ^ 53)) with 54. rewrite fexp_eq.
    replace (Z.max (54 + (0 + Z.pos k) - 53) (-1074) - (0 + Z.pos k))
      with 1 by lia.
    reflexivity.
Qed.

Lemma exact_for_rounded (p : positive) (s : spec_float) :
  exact_for p s -> rounded_positive s.
Proof.
  intros (m & e & -> & Hd & He & _). right. exists m, e.
  repeat split; try assumption; lia.
Qed.

Lemma digits_scaled (p q : positive) (k : Z) :
  0 <= k -> Z.pos q = Z.pos p * 2 ^ k ->
  Z.pos (digits2_pos q) = Z.pos (digits2_pos p) + k.
Proof.
  intros Hk Hq. rewrite !digits_log2, Hq, Z.log2_mul_pow2 by lia. lia.
Qed.

Lemma normalize_short (p : positive) :
  Z.pos (digits2_pos p) <= 53 ->
  exact_for p (binary_normalize prec emax (Z.pos p) 0 false).
Proof.
  intros Hd. set (d := Z.pos (digits2_pos p)) in *.
  assert (0 < d) by (unfold d; lia).
  unfold binary_normalize, binary_round, shl_align. fold d.
  rewrite fexp_eq.
  replace (Z.max (d + 0 - 53) (-1074) - 0) with (d - 53) by lia.
  destruct (d - 53) as [|k|k] eqn:Hk; try lia.
  - rewrite round_aux_53 by (fold d; lia).
    exists p, 0. cbn [Z.leb Z.compare].
    repeat split; first [lia | fold d; lia].
  - pose proof (pos_iter_xO p k) as Hq.
    assert (Hdq : Z.pos (digits2_pos (Pos.iter xO p k)) = 53).
    { rewrite (digits_scaled p _ (Z.pos k)); [fold d|lia|exact Hq]. lia. }
    replace (Z.max (d + 0 - 53) (-1074)) with (Z.neg k) by lia.
    rewrite round_aux_53 by (try exact Hdq; lia).
    destruct (Z.leb_spec (Z.neg k) 971) as [_|]; [|lia].
    exists (Pos.iter xO p k), (Z.neg k).
    repeat split; try lia; try exact Hdq.
    rewrite Hq. reflexivity.
Qed.

Lemma normalize_long (p : positive) :
  54 <= Z.pos (digits2_pos p) ->
  binary_normalize prec emax (Z.pos p) 0 false
  = binary_round_aux prec emax false (Z.pos p) 0 loc_Exact.
Proof.
  intros Hd. unfold binary_normalize, binary_round, shl_align.
  rewrite fexp_eq.
  destruct (Z.max (Z.pos (digits2_pos p) + 0 - 53) (-1074) - 0)
    as [|k|k] eqn:Hk; try reflexivity; lia.
Qed.

Lemma round_long_rounded (p : positive) :
  54 <= Z.pos (digits2_pos p) ->
  rounded_positive (binary_round_aux prec emax false (Z.pos p) 0 loc_Exact).
Proof.
  intros Hd. destruct (round_aux_long p Hd) as (m & e & -> & Hm & He).
  destruct (Z.leb_spec e 971); [right|left; reflexivity].
  exists m, e. repeat split; try assumption; lia.
Qed.

Lemma normalize_rounded (p : positive) :
  rounded_positive (binary_normalize prec emax (Z.pos p) 0 false).
Proof.
  destruct (Z.le_gt_cases (Z.pos (digits2_pos p)) 53) as [Hd|Hd].
  - eapply exact_for_rounded, normalize_short, Hd.
  - rewrite normalize_long by lia. apply round_long_rounded. lia.
Qed.

Lemma div_eucl_div_mod (a b : Z) : Z.div_eucl a b = (a / b, a mod b).
Proof.
  unfold Z.div, Z.modulo. destruct (Z.div_eucl a b). reflexivity.
Qed.

(** int / int with divisor 1 *)
Lemma div_one_short (p : positive) :
  Z.pos (digits2_pos p) <= 53 ->
  exact_for p (SFdiv prec emax (SF_of_Z (Z.pos p)) (SF_of_Z 1)).
Proof.
  intros Hd. set (d := Z.pos (digits2_pos p)) in *.
  assert (0 < d) by (unfold d; lia).
  cbn [SF_of_Z SFdiv]. unfold SFdiv_core_binary.
  cbn [Zdigits2 digits2_pos]. fold d. rewrite fexp_eq.
  replace (Z.min (Z.max (d + 0 - (1 + 0) - 53) (-1074)) (0 - 0))
    with (d - 54) by lia.
  replace (0 - 0 - (d - 54)) with (54 - d) by lia.
  destruct (54 - d) as [|k|k] eqn:Hk; try lia.
  rewrite Z.shiftl_mul_pow2 by lia.
  set (q := Z.to_pos (Z.pos p * 2 ^ (53 - d))).
  assert (H2 : 0 < 2 ^ (53 - d)) by (apply Z.pow_pos_nonneg; lia).
  assert (Hq : Z.pos q = Z.pos p * 2 ^ (53 - d))
    by (unfold q; rewrite Z2Pos.id; nia).
  assert (Hq2 : Z.pos p * 2 ^ Z.pos k = Z.pos q~0).
  { change (Z.pos q~0) with (2 * Z.pos q). rewrite Hq. replace (Z.pos k) with (Z.succ (53 - d)) by lia.
    rewrite Z.pow_succ_r by lia. lia. }
  rewrite Hq2, div_eucl_div_mod, Z.div_1_r, Z.mod_1_r.
  assert (Hdq : Z.pos (digits2_pos q) = 53).
  { rewrite (digits_scaled p q (53 - d)); [fold d|lia|exact Hq]. lia. }
  change (new_location 1 0) with loc_Exact. cbn [xorb].
  replace (d - 54) with (d - 53 - 1) by lia.
  rewrite round_aux_54 by (try exact Hdq; lia).
  destruct (Z.leb_spec (d - 53) 971) as [_|]; [|lia].
  exists q, (d - 53). repeat split; try lia; try exact Hdq.
  rewrite Hq. f_equal. f_equal. lia.
Qed.

Lemma div_one_long (p : positive) :
  54 <= Z.pos (digits2_pos p) ->
  SFdiv prec emax (SF_of_Z (Z.pos p)) (SF_of_Z 1)
  = binary_round_aux prec emax false (Z.pos p) 0 loc_Exact.
Proof.
  intros Hd. set (d := Z.pos (digits2_pos p)) in *.
  cbn [SF_of_Z SFdiv]. unfold SFdiv_core_binary.
  cbn [Zdigits2 digits2_pos]. fold d. rewrite fexp_eq.
  replace (Z.min (Z.max (d + 0 - (1 + 0) - 53) (-1074)) (0 - 0))
    with 0 by lia.
  cbn [Z.sub Z.add Z.opp].
  rewrite div_eucl_div_mod, Z.div_1_r, Z.mod_1_r. reflexivity.
Qed.

Lemma div_one_rounded (p : positive) :
  rounded_positive (SFdiv prec emax (SF_of_Z (Z.pos p)) (SF_of_Z 1)).
Proof.
  destruct (Z.le_gt_cases (Z.pos (digits2_pos p)) 53) as [Hd|Hd].
  - eapply exact_for_rounded, div_one_short, Hd.
  - rewrite div_one_long by lia. apply round_long_rounded. lia.
Qed.

(** Dividing such a double by [1.0] gives it back. *)
Lemma div_float_one (s : spec_float) :
  rounded_positive s -> SFdiv prec emax s (Prim2SF 1) = s.
Proof.
  intros [-> | (m & e & -> & Hd & He)]; [reflexivity|].
  change (Prim2SF 1) with (S754_finite false 4503599627370496 (-52)).
  cbn [SFdiv]. unfold SFdiv_core_binary. cbn [Zdigits2]. rewrite Hd.
  change (Z.pos (digits2_pos 4503599627370496)) with 53.
  rewrite fexp_eq.
  replace (Z.min (Z.max (53 + e - (53 + -52) - 53) (-1074)) (e - -52))
    with (e - 1) by lia.
  replace (e - -52 - (e - 1)) with 53 by lia.
  rewrite Z.shiftl_mul_pow2 by lia.
  rewrite div_eucl_div_mod.
  replace (Z.pos m * 2 ^ 53) with (Z.pos m~0 * 4503599627370496) by lia.
  rewrite Z.div_mul, Z.mod_mul by lia.
  change (new_location 4503599627370496 0) with loc_Exact. cbn [xorb].
  rewrite round_aux_54 by (try exact Hd; lia).
  destruct (Z.leb_spec e 971) as [_|]; [reflexivity|lia].
Qed.

Lemma rounded_valid (s : spec_float) :
  rounded_positive s -> valid_binary s = true.
Proof.
  intros [-> | (m & e & -> & Hd & He)]; [reflexivity|].
  unfold valid_binary, SpecFloat.valid_binary, bounded, canonical_mantissa.
  rewrite Hd, fexp_eq. apply andb_true_iff. split.
  - apply Z.eqb_eq. lia.
  - apply Z.leb_le. change (emax - prec) with 971. lia.
Qed.

Lemma dyadic_value (m e : Z) :
  (e <= 0 -> Qeq (dyadic m e * inject_Z (2 ^ (- e))) (inject_Z m))
  /\ (0 <= e -> Qeq (dyadic m e) (inject_Z (m * 2 ^ e))).
Proof.
  split; intros He; destruct e as [|k|k]; try lia; unfold dyadic.
  - unfold Qeq, Qmult, inject_Z. cbn [Qnum Qden Z.opp Z.pow Pos.mul]. lia.
  - unfold Qeq, Qmult, inject_Z. cbn [Qnum Qden Z.opp Pos.mul].
    rewrite Pos.mul_1_r, Pos2Z.inj_pow.
    change (- Z.neg k) with (Z.pos k). ring.
  - cbn [Z.pow]. rewrite Z.mul_1_r. reflexivity.
  - rewrite Z.pow_pos_fold. reflexivity.
Qed.

Lemma rounded_at_least_one (s : spec_float) :
  rounded_positive s ->
  xle (XFin (inject_Z 1)) (xreal_of_SF s) = true
  /\ xeq (xreal_of_SF s) (XFin (inject_Z 0)) = false.
Proof.
  intros [-> | (m & e & -> & Hd & He)]; [split; reflexivity|].
  pose proof (digits_bounds m) as Hm. rewrite Hd in Hm.
  cbn [xreal_of_SF cond_Zopp xle xeq].
  assert (Hone : (inject_Z 1 <= dyadic (Z.pos m) e)%Q).
  { destruct (dyadic_value (Z.pos m) e) as [Hneg Hpos].
    destruct (Z.le_gt_cases 0 e) as [H0|H0].
    - rewrite (Hpos H0), <- Zle_Qle.
      assert (1 <= 2 ^ e)
        by (change 1 with (2 ^ 0); apply Z.pow_le_mono_r; lia).
      nia.
    - assert (H2 : 0 < 2 ^ (- e)) by (apply Z.pow_pos_nonneg; lia).
      assert (Hle : 2 ^ (- e) <= 2 ^ 52) by (apply Z.pow_le_mono_r; lia).
      apply Qmult_le_r with (z := inject_Z (2 ^ (- e))).
      + rewrite <- (Zlt_Qlt 0). exact H2.
      + rewrite (Hneg ltac:(lia)), <- inject_Z_mult, <- Zle_Qle. lia. }
  split.
  - apply Qle_bool_iff. exact Hone.
  - destruct (Qeq_bool _ _) eqn:H0; [|reflexivity].
    apply Qeq_bool_iff in H0. rewrite H0 in Hone.
    rewrite <- Zle_Qle in Hone. lia.
Qed.

Lemma exact_for_value (p : positive) (s : spec_float) :
  exact_for p s ->
  xeq (xreal_of_SF s) (XFin (inject_Z (Z.pos p))) = true.
Proof.
  intros (m & e & -> & Hd & He & Hm).
  cbn [xreal_of_SF cond_Zopp xeq]. apply Qeq_bool_iff.
  destruct (dyadic_value (Z.pos m) e) as [Hneg _].
  assert (H2 : 0 < 2 ^ (- e)) by (apply Z.pow_pos_nonneg; lia).
  apply Qmult_inj_r with (z := inject_Z (2 ^ (- e))).
  - intros H0. change 0%Q with (inject_Z 0) in H0.
    unfold Qeq in H0. cbn [Qnum Qden inject_Z] in H0. lia.
  - rewrite (Hneg ltac:(lia)), <- inject_Z_mult, Hm. reflexivity.
Qed.

Lemma short_digits (p : positive) :
  Z.pos p < 2 ^ 53 -> Z.pos (digits2_pos p) <= 53.
Proof.
  intros Hp. pose proof (digits_bounds p) as [Hlo _].
  destruct (Z.le_gt_cases (Z.pos (digits2_pos p)) 53) as [|Hd]; [assumption|].
  assert (2 ^ 53 <= 2 ^ (Z.pos (digits2_pos p) - 1))
    by (apply Z.pow_le_mono_r; lia).
  lia.
Qed.

Lemma value_SF2Prim (s : spec_float) :
  rounded_positive s -> value (NFloat (SF2Prim s)) = xreal_of_SF s.
Proof.
  intros Hs. cbn [value]. unfold value_of_float.
  rewrite Prim2SF_SF2Prim by (apply rounded_valid, Hs). reflexivity.
Qed.

(** [n / 1] for a positive int [n], with the int [1] or the float [1.0]
    as divisor: the quotient is at least 1, is not 0, and is [n] itself
    as long as [n] fits the 53 bits of a double. *)
Lemma count_over_one_value (n : Z) (f : num) :
  1 <= n ->
  truediv (NInt n) (NInt 1) = Ok f \/ truediv (NInt n) (NFloat 1) = Ok f ->
  ge f (NInt 1) = true
  /\ eq f (NInt 0) = false
  /\ (n <= 2 ^ 53 -> eq f (NInt n) = true).
Proof.
  intros Hn Hdiv. destruct n as [|p|p]; try lia.
  assert (Hval : exists s, value f = xreal_of_SF s /\ rounded_positive s
                           /\ (Z.pos p < 2 ^ 53 -> exact_for p s)).
  { destruct Hdiv as [Hdiv | Hdiv].
    - unfold truediv in Hdiv. cbn [Z.eqb] in Hdiv.
      destruct (_ <=? _) in Hdiv; [discriminate Hdiv|].
      injection Hdiv as <-. eexists. split; [|split].
      + apply value_SF2Prim, div_one_rounded.
      + apply div_one_rounded.
      + intros Hp. apply div_one_short, short_digits, Hp.
    - unfold truediv, to_float, float_of_int in Hdiv.
      destruct (_ <=? _) in Hdiv; [discriminate Hdiv|].
      cbn [bind] in Hdiv.
      change (is_zero (NFloat 1)) with false in Hdiv.
      injection Hdiv as <-.
      pose proof (normalize_rounded p) as Hbig.
      exists (binary_normalize prec emax (Z.pos p) 0 false).
      split; [|split].
      + cbn [value]. unfold value_of_float. rewrite div_spec.
        rewrite Prim2SF_SF2Prim by (apply rounded_valid, Hbig).
        unfold SF64div. rewrite div_float_one by exact Hbig. reflexivity.
      + exact Hbig.
      + intros Hp. apply normalize_short, short_digits, Hp. }
  destruct Hval as (s & Hv & Hbig & Hexact).
  unfold ge, le, eq. rewrite Hv. cbn [value].
  destruct (rounded_at_least_one s Hbig) as [H1 H0].
  split; [exact H1|]. split; [exact H0|].
  intros Hp. destruct (Z.eq_dec (Z.pos p) (2 ^ 53)) as [Hp53|Hp53].
  - rewrite <- Hv. clear Hv Hbig Hexact H1 H0 s.
    injection Hp53 as ->.
    destruct Hdiv as [Hdiv | Hdiv]; vm_compute in Hdiv;
      injection Hdiv as <-; vm_compute; reflexivity.
  - apply exact_for_value, Hexact. lia.
Qed.

(** Beyond 53 bits the quotient is the nearest double, which need not be
    the integer. *)
Example count_over_one_rounds :
  truediv (NInt (2 ^ 53 + 1)) (NInt 1) = Ok (NFloat 9007199254740992)
  /\ truediv (NInt (2 ^ 53 + 1)) (NFloat 1) = Ok (NFloat 9007199254740992)
  /\ eq (NFloat 9007199254740992) (NInt (2 ^ 53 + 1)) = false.
Proof. vm_compute. repeat split; reflexivity. Qed.

End Rounding.

Section NormalizerClaims.

Variable float_of_str : string -> result float.
Variable int_of_str : string -> result Z.

Local Abbreviation analyze :=
  (analyze_transaction_patterns float_of_str int_of_str).

(** C2 (code bug): for the empty list the normalizer returns, without
    raising, a record of six zero fields that has no
    [failed_transaction_rate] and no [total_value_eth] key, whereas every
    record it returns for a non-empty list has both. *)
Theorem empty_list_metrics_lack_two_fields :
  analyze [] = Ok empty_metrics
  /\ map (fun k => empty_metrics !! k)
       [ "total_transactions"; "avg_transaction_value";
         "transaction_frequency"; "failed_transactions";
         "unique_counterparties"; "time_span_days" ]
     = repeat (Some (NInt 0)) 6
  /\ empty_metrics !! "failed_transaction_rate" = None
  /\ empty_metrics !! "total_value_eth" = None
  /\ forall txs m, txs <> [] -> analyze txs = Ok m ->
       is_Some (m !! "failed_transaction_rate")
       /\ is_Some (m !! "total_value_eth").
Proof.
  split; [reflexivity|]. split; [vm_compute; reflexivity|].
  split; [vm_compute; reflexivity|]. split; [vm_compute; reflexivity|].
  intros txs m Hne Hret.
  destruct (analyze_nonempty_inv _ _ txs m Hne Hret)
    as (avg & span & freq & rate & volume & ts & _ & _ & _ & _ & _ & _
        & Hrate & _ & Hvol & _).
  rewrite Hrate, Hvol. split; eexists; reflexivity.
Qed.

(** C8 (as amended): when a returned record comes from a list with at
    least one truthy timestamp and its [time_span_days] is at most 1, the
    divisor [max(time_span, 1)] is 1, so [transaction_frequency] is
    [total_transactions / 1]: a number that is at least 1, never 0, and
    that compares equal to [total_transactions] whenever the count is at
    most [2^53]. *)
Theorem short_span_frequency_is_count
  (txs : list (gmap string field)) (m : gmap string num) (span : num)
  (Hret : analyze txs = Ok m)
  (Hstamp : exists tx, In tx txs /\ truthy (tx !! "timeStamp") = true)
  (Hspan : m !! "time_span_days" = Some span)
  (Hday : le span (NInt 1) = true) :
  exists freq,
    m !! "total_transactions" = Some (NInt (Z.of_nat (length txs)))
    /\ m !! "transaction_frequency" = Some freq
    /\ (truediv (NInt (Z.of_nat (length txs))) (NInt 1) = Ok freq
        \/ truediv (NInt (Z.of_nat (length txs))) (NFloat 1) = Ok freq)
    /\ ge freq (NInt 1) = true
    /\ eq freq (NInt 0) = false
    /\ (Z.of_nat (length txs) <= 2 ^ 53 ->
        eq freq (NInt (Z.of_nat (length txs))) = true).
Proof.
  destruct Hstamp as (tx & Hin & Htruthy).
  assert (Hne : txs <> []) by (intros ->; destruct Hin).
  assert (Hlen : 1 <= Z.of_nat (length txs)).
  { destruct txs; [congruence|]. cbn [length]. lia. }
  destruct (analyze_nonempty_inv _ _ txs m Hne Hret)
    as (avg & span' & freq & rate & volume & ts & Hts & Hsf & _ & Htotal & _
        & Hfreq & _ & Hspan' & _).
  rewrite Hspan in Hspan'. injection Hspan' as <-.
  assert (Hstamped : In tx (stamped txs)).
  { apply filter_In. split; assumption. }
  apply mapM_length in Hts.
  destruct ts as [|t0 ts];
    [destruct (stamped txs); [destruct Hstamped|discriminate Hts]|].
  destruct Hsf as [Hdiv Hf].
  assert (Hdivisor : max2 span (NInt 1) = NInt 1
                     \/ max2 span (NInt 1) = NFloat 1).
  { unfold max2, gt, lt, xlt. fold (le span (NInt 1)). rewrite Hday.
    cbn [andb]. destruct (xle (value (NInt 1)) (value span)) eqn:Hge;
      cbn [negb]; [right|left; reflexivity].
    pose proof (xle_antisym_eq _ _ Hday Hge) as Heq.
    unfold truediv in Hdiv.
    destruct (_ =? 0); [discriminate Hdiv|].
    destruct (_ <=? _); [discriminate Hdiv|].
    injection Hdiv as <-. f_equal. apply float_eq_one. exact Heq. }
  assert (Hquot : truediv (NInt (Z.of_nat (length txs))) (NInt 1) = Ok freq
                  \/ truediv (NInt (Z.of_nat (length txs))) (NFloat 1)
                     = Ok freq).
  { destruct Hdivisor as [-> | ->] in Hf; [left|right]; exact Hf. }
  exists freq. split; [exact Htotal|]. split; [exact Hfreq|].
  split; [exact Hquot|]. exact (count_over_one_value _ _ Hlen Hquot).
Qed.

End NormalizerClaims.

Lemma short_span_frequency_is_count_witness :
  analyze_transaction_patterns decimal_float decimal_int
    [Records.tx1; Records.tx3; Records.tx1] = Ok Records.metrics3
  /\ exists freq,
       Records.metrics3 !! "transaction_frequency" = Some freq
       /\ ge freq (NInt 1) = true
       /\ eq freq (NInt 0) = false
       /\ eq freq (NInt 3) = true.
Proof.
  assert (H : analyze_transaction_patterns decimal_float decimal_int
                [Records.tx1; Records.tx3; Records.tx1] = Ok Records.metrics3)
    by (vm_cast_no_check (@Logic.eq_refl _ (Ok Records.metrics3))).
  split; [exact H|].
  destruct (short_span_frequency_is_count decimal_float decimal_int
              _ _ (NFloat 0.041666666666666664) H)
    as (freq & _ & Hf & _ & H1 & H0 & Hq).
  - exists Records.tx1. split; [left; reflexivity|vm_compute; reflexivity].
  - vm_compute. reflexivity.
  - vm_compute. reflexivity.
  - exists freq. split; [exact Hf|]. split; [exact H1|]. split; [exact H0|].
    apply Hq. vm_compute. discriminate.
Defined.

(** Counterexample to C8 as stated: one transaction, time span 0 days,
    and the frequency is 1.0, which does not compare equal to 0. *)
Lemma short_span_frequency_not_zero :
  let r := analyze_transaction_patterns decimal_float decimal_int
             [Records.tx1] in
  Records.field_of r "time_span_days" = Some (NFloat 0)
  /\ Records.field_of r "transaction_frequency" = Some (NFloat 1)
  /\ eq (NFloat 1) (NInt 0) = false.
Proof. vm_compute. repeat split; reflexivity. Qed.

(* ===================================================================== *)
(** * When the scorer returns                                             *)
(* ===================================================================== *)

Section Returns.

Lemma truediv_is_float (a b r : num) :
  truediv a b = Ok r -> exists f, r = NFloat f.
Proof.
  unfold truediv. destruct a as [x|x], b as [y|y].
  - destruct (y =? 0); [intros H; discriminate H|].
    destruct (_ <=? _); [intros H; discriminate H|].
    intros H. injection H as <-. eexists. reflexivity.
  - cbn [to_float]. destruct (float_of_int x); cbn [bind];
      [|intros H; discriminate H].
    destruct (is_zero _); intros H; [discriminate H|].
    injection H as <-. eexists. reflexivity.
  - cbn [to_float bind]. destruct (float_of_int y); cbn [bind];
      [|intros H; discriminate H].
    destruct (is_zero _); intros H; [discriminate H|].
    injection H as <-. eexists. reflexivity.
  - cbn [to_float bind].
    destruct (is_zero _); intros H; [discriminate H|].
    injection H as <-. eexists. reflexivity.
Qed.

Lemma to_float_convertible (n : num) :
  convertible n -> exists f, to_float n = Ok f.
Proof.
  destruct n as [z|f]; cbn [convertible to_float]; [|eexists; reflexivity].
  intros H. unfold float_of_int.
  destruct (Z.leb_spec float_overflow_bound (Z.abs z)); [lia|].
  eexists. reflexivity.
Qed.

Lemma truediv_returns (a b : num) :
  convertible a -> convertible b -> is_zero b = false ->
  exists f, truediv a b = Ok (NFloat f).
Proof.
  intros Ha Hb Hz. unfold truediv.
  destruct a as [x|x], b as [y|y].
  - cbn [is_zero] in Hz. rewrite Hz. cbn [convertible] in Ha.
    apply Z.eqb_neq in Hz.
    assert (0 < float_overflow_bound) by (vm_compute; reflexivity).
    destruct (Z.leb_spec (float_overflow_bound * Z.abs y) (Z.abs x)); [nia|].
    eexists. reflexivity.
  - destruct (to_float_convertible _ Ha) as [f ->]. cbn [to_float bind].
    rewrite Hz. eexists. reflexivity.
  - destruct (to_float_convertible _ Hb) as [f ->]. cbn [to_float bind].
    rewrite Hz. eexists. reflexivity.
  - cbn [to_float bind]. rewrite Hz. eexists. reflexivity.
Qed.

Lemma truediv_zero_divisor (a b : num) :
  convertible a -> convertible b -> is_zero b = true ->
  exists msg, truediv a b = Raise (Exn ZeroDivisionError msg).
Proof.
  intros Ha Hb Hz. unfold truediv.
  destruct a as [x|x], b as [y|y].
  - cbn [is_zero] in Hz. rewrite Hz. eexists. reflexivity.
  - destruct (to_float_convertible _ Ha) as [f ->]. cbn [to_float bind].
    rewrite Hz. eexists. reflexivity.
  - destruct (to_float_convertible _ Hb) as [f ->]. cbn [to_float bind].
    rewrite Hz. eexists. reflexivity.
  - cbn [to_float bind]. rewrite Hz. eexists. reflexivity.
Qed.

(** [max(volume_eth, 0.001)] is never zero. *)
Lemma volume_floor_nonzero (v : num) :
  is_zero (max2 v (NFloat 0.001)) = false.
Proof.
  unfold max2. destruct (gt (NFloat 0.001) v) eqn:Hgt;
    [vm_compute; reflexivity|].
  destruct (is_zero v) eqn:Hz; [|reflexivity].
  assert (Hv : value v = XFin 0).
  { destruct v as [z|f]; cbn [is_zero] in Hz.
    - apply Z.eqb_eq in Hz. subst z. reflexivity.
    - unfold float_is_zero in Hz. cbn [value]. unfold value_of_float.
      destruct (Prim2SF f); try discriminate Hz. reflexivity. }
  unfold gt, lt in Hgt. rewrite Hv in Hgt. vm_compute in Hgt.
  discriminate Hgt.
Qed.

Lemma volume_floor_convertible (v : num) :
  convertible v -> convertible (max2 v (NFloat 0.001)).
Proof. unfold max2. destruct (gt _ _); [intros _; exact I|auto]. Qed.

Lemma balance_score_returns (bd m : gmap string num) :
  convertible (get bd "current_balance_eth" (NInt 0)) ->
  convertible (get m "total_value_eth" (NInt 0)) ->
  exists s, calculate_balance_stability_score bd m = Ok s.
Proof.
  intros Hb Hv. unfold calculate_balance_stability_score.
  destruct (truediv_returns _ _ Hb (volume_floor_convertible _ Hv)
              (volume_floor_nonzero _)) as [ratio ->].
  cbn [bind].
  assert (Hadd : exists s, add (balance_base_score
                                  (get bd "current_balance_eth" (NInt 0)))
                               (balance_adjustment (NFloat ratio)) = Ok s).
  { pose proof (base_score_in (get bd "current_balance_eth" (NInt 0))) as Hbase.
    pose proof (adjustment_in (NFloat ratio)) as Hadj.
    destruct (balance_base_score _) as [z|b];
      [destruct Hbase as [H|[H|[H|[H|[H|[]]]]]]; discriminate H|].
    destruct (balance_adjustment _) as [z|a]; [|eexists; reflexivity].
    destruct Hadj as [H|[H|[H|[]]]]; try discriminate H.
    injection H as <-. eexists. unfold add.
    change (to_float (NInt 0)) with (Ok 0%float). reflexivity. }
  destruct Hadd as [s ->]. cbn [bind]. eexists. reflexivity.
Qed.

Lemma diversity_score_returns (m : gmap string num) :
  convertible (get m "unique_counterparties" (NInt 0)) ->
  convertible (get m "total_transactions" (NInt 1)) ->
  is_zero (get m "total_transactions" (NInt 1)) = false ->
  exists s, calculate_counterparty_diversity_score m = Ok s.
Proof.
  intros Hu Ht Hz. unfold calculate_counterparty_diversity_score.
  destruct (truediv_returns _ _ Hu Ht Hz) as [ratio ->]. cbn [bind].
  split_tests; eexists; reflexivity.
Qed.

End Returns.

(* ===================================================================== *)
(** * The batch pipeline                                                  *)
(* ===================================================================== *)

Section PipelineFacts.

Variable float_of_str : string -> result float.
Variable int_of_str : string -> result Z.
Variable data_fetcher : DataFetcher.

Local Abbreviation analyze :=
  (analyze_transaction_patterns float_of_str int_of_str).
Local Abbreviation process :=
  (process_wallet float_of_str int_of_str data_fetcher).

Lemma length_remove_dups_le {A} `{EqDecision A} (l : list A) :
  (length (remove_dups l) <= length l)%nat.
Proof.
  induction l as [|x l IH]; cbn [remove_dups length]; [lia|].
  destruct (decide_rel _ x l); cbn [length]; lia.
Qed.

Lemma length_pairs {A B} (f g : A -> B) (l : list A) :
  length (flat_map (fun x => [f x; g x]) l) = (2 * length l)%nat.
Proof. induction l as [|x l IH]; cbn [flat_map length app]; lia. Qed.

(** The record of a non-empty list can always be scored against a
    balance that converts to a float. *)
Lemma normalized_metrics_score (w : string) (txs : list (gmap string field))
  (m cd bd : gmap string num) :
  txs <> [] -> analyze txs = Ok m ->
  convertible (get bd "current_balance_eth" (NInt 0)) ->
  exists r, calculate_risk_score w m cd bd = Ok r.
Proof.
  intros Hne Hret Hbal.
  destruct (analyze_nonempty_inv _ _ txs m Hne Hret)
    as (avg & span & freq & rate & volume & ts & _ & _ & _ & Htotal & _ & _
        & _ & _ & Hvol & _ & Huniq & total & Hdiv).
  destruct (truediv_is_float _ _ _ Hdiv) as [v ->].
  destruct (balance_score_returns bd m Hbal) as [sb Hsb].
  { unfold get. rewrite Hvol. exact I. }
  assert (Hsd : exists sd, calculate_counterparty_diversity_score m = Ok sd).
  { unfold calculate_counterparty_diversity_score, get.
    rewrite Huniq, Htotal. cbn [from_option id]. unfold truediv.
    cbv beta iota.
    assert (Hn : 1 <= Z.of_nat (length txs)).
    { destruct txs; [congruence|]. cbn [length]. lia. }
    destruct (Z.eqb_spec (Z.of_nat (length txs)) 0); [lia|].
    pose proof (length_remove_dups_le
                  (flat_map (fun tx : gmap string field =>
                               [get tx "to" (FStr ""); get tx "from" (FStr "")])
                            txs)) as Hk.
    rewrite length_pairs in Hk.
    assert (2 < float_overflow_bound) by (vm_compute; reflexivity).
    match goal with
    | |- context [?a <=? ?b] => destruct (Z.leb_spec a b) as [Hover|_]
    end; [nia|].
    cbn [bind]. split_tests; eexists; reflexivity. }
  destruct Hsd as [sd Hsd].
  eapply calculate_risk_score_returns; eassumption.
Qed.

(** C5: a failed transaction-list fetch gives the error placeholder (risk
    score 999, category "Error - Unable to Assess", empty scores, metrics,
    usage and balance) whose [error] carries the provider's message; a
    failed protocol-usage or balance fetch only replaces the missing dict
    by [{compound_count: 0}] or [{current_balance_eth: 0}], and scoring goes
    on: the wallet gets exactly the record [calculate_risk_score] returns
    on the substituted dicts, a normal scored record without [error]. For
    a non-empty transaction list that record always exists when the
    balance converts to a float, as the default balance does. *)
Theorem fetch_failures (wallet : string) (txs : list (gmap string field))
  (m : gmap string num) (fetched : response (gmap string num))
  (Htx : get_wallet_transactions data_fetcher wallet = Success txs)
  (Hm : analyze txs = Ok m)
  (Hcd : get_compound_interactions data_fetcher wallet = Ok fetched) :
  let cd := match fetched with
            | Success d => d
            | Failure _ => {[ "compound_count" := NInt 0 ]}
            end in
  let bd := match get_wallet_balance_history data_fetcher wallet with
            | Success d => d
            | Failure _ => {[ "current_balance_eth" := NInt 0 ]}
            end in
  (forall (f : DataFetcher) (msg : string),
      get_wallet_transactions f wallet = Failure msg ->
      process_wallet float_of_str int_of_str f wallet
      = {| wallet_address := wallet;
           risk_score := 999;
           risk_category := "Error - Unable to Assess";
           component_scores := [];
           weighted_score := None;
           transaction_metrics := ∅;
           compound_data := ∅;
           balance_data := ∅;
           error := Some ("Transaction fetch error: " ++ msg)%string |})
  /\ (forall r, calculate_risk_score wallet m cd bd = Ok r ->
        process wallet = r
        /\ error r = None /\ risk_score r <= 967
        /\ compound_data r = cd /\ balance_data r = bd)
  /\ (txs <> [] -> convertible (get bd "current_balance_eth" (NInt 0)) ->
      exists r, calculate_risk_score wallet m cd bd = Ok r)
  /\ convertible (get ({[ "current_balance_eth" := NInt 0 ]}
                         : gmap string num)
                      "current_balance_eth" (NInt 0)).
Proof.
  intros cd bd. split; [|split; [|split]].
  - intros f msg Hfail. unfold process_wallet. rewrite Hfail. reflexivity.
  - intros r Hr. unfold process_wallet, score_wallet.
    rewrite Htx, Hm. cbn [bind]. rewrite Hcd. cbn [bind].
    fold cd. fold bd. unfold default_compound_data, default_balance_data.
    fold cd. fold bd. rewrite Hr.
    apply calculate_risk_score_inv in Hr
      as (sb & sd & ws & scaled & _ & _ & _ & Hin & Hs & Hz & Hrec).
    apply weighted_sums_ok, sum_ok_facts in Hin
      as (scaled' & z & Hs' & Hz' & _ & _ & Hzr & _).
    rewrite Hs in Hs'. injection Hs' as <-.
    rewrite Hz in Hz'. injection Hz' as Hzeq.
    split; [reflexivity|]. rewrite Hrec. cbn. repeat split. lia.
  - intros Hne Hconv. eapply normalized_metrics_score; eassumption.
  - vm_compute. reflexivity.
Qed.

(** One pass of the loop adds the wallet's record, and a second, error
    record for the same wallet when the checkpoint write or the sleep
    raises. *)
Lemma loop_body_records to_csv sleep (output_file : string) (delay : num)
  (i : Z) (wallet : string) (results : list RiskAssessment) :
  let out := loop_body float_of_str int_of_str data_fetcher to_csv sleep
               output_file delay i wallet results in
  out = results ++ [process wallet]
  \/ exists msg,
       out = results ++ [process wallet; _create_error_result wallet msg].
Proof.
  cbn zeta. unfold loop_body.
  match goal with
  | |- context [match ?c with Ok _ => _ | Raise _ => _ end] => destruct c
  end.
  - left. reflexivity.
  - right. eexists. rewrite <- app_assoc. reflexivity.
Qed.

(** When no checkpoint write and no sleep raises, the loop yields
    exactly one record per address, in input order. *)
Lemma batch_loop_quiet to_csv sleep (output_file : string) (delay : num) :
  (forall rows path, to_csv rows path = Ok tt) ->
  (forall s, sleep s = Ok tt) ->
  forall wallets i results,
    batch_loop float_of_str int_of_str data_fetcher to_csv sleep
               output_file delay i wallets results
    = results ++ map process wallets.
Proof.
  intros Hcsv Hsleep. induction wallets as [|w wallets IH]; intros i results.
  - cbn [batch_loop map]. rewrite app_nil_r. reflexivity.
  - cbn [batch_loop map]. rewrite IH. unfold loop_body.
    unfold _save_intermediate_results. rewrite Hcsv, Hsleep.
    destruct (_ =? 0); cbn [bind]; destruct (gt _ _);
      rewrite <- app_assoc; reflexivity.
Qed.

End PipelineFacts.

Lemma fetch_failures_witness :
  analyze_transaction_patterns decimal_float decimal_int
    [Records.tx1; Records.tx2] = Ok World.metrics2
  /\ error (process_wallet decimal_float decimal_int World.fetcher_partial
                           "w1") = None.
Proof.
  assert (Hm : analyze_transaction_patterns decimal_float decimal_int
                 [Records.tx1; Records.tx2] = Ok World.metrics2)
    by (vm_cast_no_check (@Logic.eq_refl _ (Ok World.metrics2))).
  split; [exact Hm|].
  destruct (fetch_failures decimal_float decimal_int World.fetcher_partial
              "w1" _ _ _ Logic.eq_refl Hm Logic.eq_refl)
    as (_ & Hscore & Hexists & Hconv).
  destruct (Hexists ltac:(discriminate) Hconv) as [r Hr].
  destruct (Hscore r Hr) as (-> & Herr & _). exact Herr.
Defined.

(** C6 (code bug): with ten wallets and an output path whose checkpoint
    file [temp_out/scores.csv] cannot be written, the tenth address
    contributes two records, its scored result and a "Critical error"
    record, so the loop yields eleven records and the table eleven rows
    for ten addresses. With a writable checkpoint the same run yields ten. *)
Theorem checkpoint_failure_duplicates_record :
  map wallet_address (World.run_batch "out/scores.csv")
  = World.wallets ++ ["w10"]
  /\ map error (World.run_batch "out/scores.csv")
     = repeat None 10
       ++ [Some "Critical error: Cannot save file into a non-existent directory: 'temp_out'"]
  /\ length (_create_results_dataframe (World.run_batch "out/scores.csv"))
     = 11%nat
  /\ length World.wallets = 10%nat
  /\ map wallet_address (World.run_batch "scores.csv") = World.wallets.
Proof. vm_compute. repeat split; reflexivity. Qed.


(* ===================================================================== *)
(** * Further properties of the scoring engine                            *)
(* ===================================================================== *)

(** X1: [calculate_risk_score] returns an assessment whenever the four
    numbers it divides (balance, volume, counterparties, transaction
    count; missing keys read as their defaults) convert to a float and the
    transaction count is not zero. *)
Theorem calculate_risk_score_total (w : string) (tm cd bd : gmap string num)
  (Hbal : convertible (get bd "current_balance_eth" (NInt 0)))
  (Hvol : convertible (get tm "total_value_eth" (NInt 0)))
  (Huniq : convertible (get tm "unique_counterparties" (NInt 0)))
  (Htot : convertible (get tm "total_transactions" (NInt 1)))
  (Hnz : is_zero (get tm "total_transactions" (NInt 1)) = false) :
  exists r, calculate_risk_score w tm cd bd = Ok r.
Proof.
  destruct (balance_score_returns bd tm Hbal Hvol) as [sb Hsb].
  destruct (diversity_score_returns tm Huniq Htot Hnz) as [sd Hsd].
  eapply calculate_risk_score_returns; eassumption.
Qed.

Lemma calculate_risk_score_total_witness :
  is_zero (get Fixture.metrics "total_transactions" (NInt 1)) = false
  /\ exists r, calculate_risk_score Fixture.wallet Fixture.metrics
                 Fixture.compound Fixture.balance = Ok r.
Proof.
  assert (Hnz : is_zero (get Fixture.metrics "total_transactions" (NInt 1))
                = false) by (vm_compute; reflexivity).
  split; [exact Hnz|].
  apply calculate_risk_score_total; try exact Hnz;
    vm_compute; first [exact I | reflexivity].
Defined.

(** X2: whenever the transaction count is present and zero (the int 0 or
    a float zero), [calculate_risk_score] raises [ZeroDivisionError],
    whatever the other entries are, as long as the numbers it divides
    convert to a float. *)
Theorem zero_transactions_raise (w : string) (tm cd bd : gmap string num)
  (Hbal : convertible (get bd "current_balance_eth" (NInt 0)))
  (Hvol : convertible (get tm "total_value_eth" (NInt 0)))
  (Huniq : convertible (get tm "unique_counterparties" (NInt 0)))
  (Htot : convertible (get tm "total_transactions" (NInt 1)))
  (Hz : is_zero (get tm "total_transactions" (NInt 1)) = true) :
  exists msg,
    calculate_risk_score w tm cd bd = Raise (Exn ZeroDivisionError msg).
Proof.
  destruct (balance_score_returns bd tm Hbal Hvol) as [sb Hsb].
  destruct (truediv_zero_divisor _ _ Huniq Htot Hz) as [msg Hdiv].
  exists msg. unfold calculate_risk_score. rewrite Hsb. cbn [bind].
  unfold calculate_counterparty_diversity_score. rewrite Hdiv. reflexivity.
Qed.

Lemma zero_transactions_raise_witness :
  is_zero (get (<["total_transactions" := NFloat 0]> Fixture.metrics)
               "total_transactions" (NInt 1)) = true
  /\ exists msg,
       calculate_risk_score Fixture.wallet
         (<["total_transactions" := NFloat 0]> Fixture.metrics)
         Fixture.compound Fixture.balance
       = Raise (Exn ZeroDivisionError msg).
Proof.
  assert (Hz : is_zero (get (<["total_transactions" := NFloat 0]>
                               Fixture.metrics)
                            "total_transactions" (NInt 1)) = true)
    by (vm_compute; reflexivity).
  split; [exact Hz|].
  apply zero_transactions_raise; try exact Hz;
    vm_compute; first [exact I | reflexivity].
Defined.

Section ScoreFloor.

Lemma weighted_sums_floor (ws : num) :
  In ws weighted_sums -> sum_floor_ok ws = true.
Proof.
  assert (H : forallb sum_floor_ok weighted_sums = true)
    by (vm_compute; reflexivity).
  intros Hin. rewrite forallb_forall in H. apply H, Hin.
Qed.

End ScoreFloor.

Lemma risk_score_range (w : string) (tm cd bd : gmap string num)
  (r : RiskAssessment) :
  calculate_risk_score w tm cd bd = Ok r -> 57 <= risk_score r <= 967.
Proof.
  intros Hret. apply calculate_risk_score_inv in Hret
    as (sb & sd & ws & scaled & _ & _ & _ & Hin & Hm & Hz & _).
  pose proof (weighted_sums_floor _ Hin) as Hlo.
  apply weighted_sums_ok, sum_ok_facts in Hin
    as (scaled' & z & Hm' & Hz' & _ & _ & Hzr & _).
  unfold sum_floor_ok in Hlo. rewrite Hm in Hlo, Hm'.
  injection Hm' as <-. rewrite Hz in Hlo, Hz'. injection Hz' as <-.
  apply Z.leb_le in Hlo. lia.
Qed.

(** X3: every risk score [calculate_risk_score] returns lies between 57
    and 967 inclusive, and the floor is attained: a wallet in the best
    bucket of every factor (volume 5000 ETH, two transactions a day, 60
    protocol interactions, balance 1000 ETH, no failed transaction, 150
    counterparties, a week of history) is given the lowest value of each
    factor score and the risk score 57. *)
Theorem risk_score_at_least_57 :
  (forall (w : string) (tm cd bd : gmap string num) (r : RiskAssessment),
     calculate_risk_score w tm cd bd = Ok r -> 57 <= risk_score r <= 967)
  /\ (forall w : string,
       exists r,
         calculate_risk_score w Fixture.best_metrics Fixture.best_compound
                              Fixture.best_balance = Ok r
         /\ risk_score r = 57
         /\ component_scores r = Fixture.best_scores
         /\ Forall2 (fun s values =>
                       In (snd s) values
                       /\ forall v, In v values -> le (snd s) v = true)
                    Fixture.best_scores value_lists).
Proof.
  split; [exact risk_score_range|].
  intros w.
  exists {| wallet_address := w;
            risk_score := 57;
            risk_category := "Very Low Risk";
            component_scores := Fixture.best_scores;
            weighted_score := Some (NFloat 0.05750000000000001);
            transaction_metrics := Fixture.best_metrics;
            compound_data := Fixture.best_compound;
            balance_data := Fixture.best_balance;
            error := None |}.
  split; [|split; [reflexivity|split; [reflexivity|]]].
  - match goal with
    | |- _ = ?rhs => vm_cast_no_check (@Logic.eq_refl _ rhs)
    end.
  - unfold Fixture.best_scores, scores_dict, value_lists.
    repeat apply List.Forall2_cons; try apply List.Forall2_nil;
      cbn [snd];
      (split;
       [ vm_compute; repeat (first [left; reflexivity | right])
       | intros v Hv;
         match goal with
         | |- le ?s v = true =>
             match type of Hv with
             | In v ?values =>
                 assert (Hall : forallb (le s) values = true)
                   by (vm_compute; reflexivity);
                 rewrite forallb_forall in Hall; exact (Hall v Hv)
             end
         end ]).
Qed.

Lemma risk_score_at_least_57_witness :
  calculate_risk_score Fixture.wallet Fixture.metrics Fixture.compound
                       Fixture.balance = Ok Fixture.assessment
  /\ 57 <= risk_score Fixture.assessment <= 967.
Proof.
  assert (H : calculate_risk_score Fixture.wallet Fixture.metrics
                Fixture.compound Fixture.balance = Ok Fixture.assessment)
    by (vm_cast_no_check (@Logic.eq_refl _ (Ok Fixture.assessment))).
  split; [exact H|]. exact (proj1 risk_score_at_least_57 _ _ _ _ _ H).
Defined.

Section MoreMonotonicity.

Variable metrics : gmap string num.

Lemma xeq_xle (a b : xreal) : xeq a b = true -> xle a b = true.
Proof.
  destruct a as [| |p|], b as [| |q|]; cbn; try discriminate; try reflexivity.
  rewrite Qeq_bool_iff, Qle_bool_iff. intros ->. apply Qle_refl.
Qed.

Lemma xeq_sym (a b : xreal) : xeq a b = xeq b a.
Proof.
  destruct a as [| |p|], b as [| |q|]; cbn; try reflexivity.
  destruct (Qeq_bool p q) eqn:H1, (Qeq_bool q p) eqn:H2; try reflexivity.
  - apply Qeq_bool_iff in H1. symmetry in H1. apply Qeq_bool_iff in H1.
    congruence.
  - apply Qeq_bool_iff in H2. symmetry in H2. apply Qeq_bool_iff in H2.
    congruence.
Qed.

(** A ceiling test passed by [y] is passed by every [x <= y]. *)
Lemma le_mono (t x y : num) :
  le x y = true -> le y t = true -> le x t = true.
Proof. intros Hxy Hyt. exact (le_trans _ _ _ Hxy Hyt). Qed.

Lemma eq_zero_mono (x y : num) :
  le (NInt 0) x = true -> le x y = true -> eq y (NInt 0) = true ->
  eq x (NInt 0) = true.
Proof.
  unfold le, eq. intros H0 Hxy Hy. apply xle_antisym_eq; [|exact H0].
  eapply xle_trans; [exact Hxy|]. apply xeq_xle. exact Hy.
Qed.

Lemma frequency_score_antitone (x y : num) :
  le x y = true ->
  le (calculate_frequency_score (<["transaction_frequency" := y]> metrics))
     (calculate_frequency_score (<["transaction_frequency" := x]> metrics))
  = true.
Proof.
  intros Hxy. unfold calculate_frequency_score.
  rewrite !get_insert. split_tests;
    solve [vm_compute; reflexivity | clash_tests Hxy].
Qed.

Lemma recent_score_monotone (x y : num) :
  le x y = true ->
  le (calculate_recent_activity_score (<["time_span_days" := x]> metrics))
     (calculate_recent_activity_score (<["time_span_days" := y]> metrics))
  = true.
Proof.
  intros Hxy. unfold calculate_recent_activity_score.
  rewrite !get_insert. split_tests;
    try solve [vm_compute; reflexivity];
    match goal with
    | Hy : le y ?t = true, Hx : le x ?t = false |- _ =>
        rewrite (le_mono t x y Hxy Hy) in Hx; discriminate Hx
    end.
Qed.

Lemma failure_score_monotone (x y : num) :
  le (NInt 0) x = true -> le x y = true ->
  le (calculate_failure_rate_score
        (<["failed_transaction_rate" := x]> metrics))
     (calculate_failure_rate_score
        (<["failed_transaction_rate" := y]> metrics))
  = true.
Proof.
  intros H0 Hxy. unfold calculate_failure_rate_score.
  rewrite !get_insert. split_tests;
    try solve [vm_compute; reflexivity];
    match goal with
    | Hy : le y ?t = true, Hx : le x ?t = false |- _ =>
        rewrite (le_mono t x y Hxy Hy) in Hx; discriminate Hx
    | Hy : eq y (NInt 0) = true, Hx : eq x (NInt 0) = false |- _ =>
        rewrite (eq_zero_mono x y H0 Hxy Hy) in Hx; discriminate Hx
    end.
Qed.

End MoreMonotonicity.

(** X4: with every other input held fixed, the frequency score never
    increases when [transaction_frequency] grows and the recent-activity
    score never decreases when [time_span_days] grows, for any two numbers
    [x <= y]; the failure-rate score never decreases when
    [failed_transaction_rate] grows from a non-negative [x]. *)
Theorem other_factor_scores_monotone (metrics : gmap string num)
  (x y : num) (Hxy : le x y = true) :
  le (calculate_frequency_score (<["transaction_frequency" := y]> metrics))
     (calculate_frequency_score (<["transaction_frequency" := x]> metrics))
  = true
  /\ le (calculate_recent_activity_score (<["time_span_days" := x]> metrics))
        (calculate_recent_activity_score (<["time_span_days" := y]> metrics))
     = true
  /\ (le (NInt 0) x = true ->
      le (calculate_failure_rate_score
            (<["failed_transaction_rate" := x]> metrics))
         (calculate_failure_rate_score
            (<["failed_transaction_rate" := y]> metrics))
      = true).
Proof.
  split; [|split].
  - apply frequency_score_antitone, Hxy.
  - apply recent_score_monotone, Hxy.
  - intros Hx. apply failure_score_monotone; assumption.
Qed.

Lemma other_factor_scores_monotone_witness :
  le (NFloat (-2)) (NFloat 0.03) = true
  /\ le (NFloat 0.03) (NFloat 0.2) = true
  /\ le (NInt 0) (NFloat 0.03) = true
  /\ le (calculate_frequency_score
           (<["transaction_frequency" := NFloat 0.03]> ∅))
        (calculate_frequency_score
           (<["transaction_frequency" := NFloat (-2)]> ∅)) = true
  /\ le (calculate_recent_activity_score
           (<["time_span_days" := NFloat (-2)]> ∅))
        (calculate_recent_activity_score
           (<["time_span_days" := NFloat 0.03]> ∅)) = true
  /\ le (calculate_failure_rate_score
           (<["failed_transaction_rate" := NFloat 0.03]> ∅))
        (calculate_failure_rate_score
           (<["failed_transaction_rate" := NFloat 0.2]> ∅)) = true.
Proof.
  assert (Hneg : le (NFloat (-2)) (NFloat 0.03) = true)
    by (vm_compute; reflexivity).
  assert (H1 : le (NFloat 0.03) (NFloat 0.2) = true)
    by (vm_compute; reflexivity).
  assert (H0 : le (NInt 0) (NFloat 0.03) = true) by (vm_compute; reflexivity).
  split; [exact Hneg|]. split; [exact H1|]. split; [exact H0|].
  split; [exact (proj1 (other_factor_scores_monotone ∅ _ _ Hneg))|].
  split; [exact (proj1 (proj2 (other_factor_scores_monotone ∅ _ _ Hneg)))|].
  exact (proj2 (proj2 (other_factor_scores_monotone ∅ _ _ H1)) H0).
Defined.

(** Without the lower bound the failure-rate score is not monotone: a
    negative rate scores 0.1, the rate 0 scores 0.0. *)
Example failure_score_negative_rate :
  calculate_failure_rate_score {[ "failed_transaction_rate" := NFloat (-0.5) ]}
  = NFloat 0.1
  /\ calculate_failure_rate_score {[ "failed_transaction_rate" := NInt 0 ]}
     = NFloat 0.0.
Proof. vm_compute. split; reflexivity. Qed.

(* ===================================================================== *)
(** * Further properties of the normalizer and the pipeline               *)
(* ===================================================================== *)

Section MoreNormalizer.

Variable float_of_str : string -> result float.
Variable int_of_str : string -> result Z.

Local Abbreviation analyze :=
  (analyze_transaction_patterns float_of_str int_of_str).

Lemma mapM_first_failure {A B} (f : A -> result B) (good rest : list A)
  (bad : A) (e : exn) :
  Forall (fun x => is_ok (f x) = true) good -> f bad = Raise e ->
  mapM f (good ++ bad :: rest) = Raise e.
Proof.
  intros Hgood Hbad. induction Hgood as [|x good Hx _ IH]; cbn [app mapM].
  - rewrite Hbad. reflexivity.
  - destruct (f x); [|discriminate Hx]. cbn [bind]. rewrite IH. reflexivity.
Qed.

(** X5: in the record of a non-empty list the three counts are ints
    with [total_transactions] the length of the list,
    [0 <= failed_transactions <= total_transactions] and
    [1 <= unique_counterparties <= 2 * total_transactions]. *)
Theorem normalizer_counts (txs : list (gmap string field))
  (m : gmap string num) (Hne : txs <> []) (Hret : analyze txs = Ok m) :
  exists failed unique : Z,
    m !! "total_transactions" = Some (NInt (Z.of_nat (length txs)))
    /\ m !! "failed_transactions" = Some (NInt failed)
    /\ m !! "unique_counterparties" = Some (NInt unique)
    /\ 0 <= failed <= Z.of_nat (length txs)
    /\ 1 <= unique <= 2 * Z.of_nat (length txs).
Proof.
  destruct (analyze_nonempty_inv _ _ txs m Hne Hret)
    as (avg & span & freq & rate & volume & ts & _ & _ & _ & Htotal & _ & _
        & _ & _ & _ & Hfailed & Huniq & _).
  eexists _, _. split; [exact Htotal|]. split; [exact Hfailed|].
  split; [exact Huniq|]. split.
  - pose proof (length_filter (fun tx : gmap string field =>
                                 tx !! "isError" = Some (FStr "1")) txs).
    lia.
  - set (cps := flat_map (fun tx : gmap string field =>
                            [get tx "to" (FStr ""); get tx "from" (FStr "")])
                         txs).
    pose proof (length_remove_dups_le cps) as Hle.
    unfold cps in Hle at 2. rewrite length_pairs in Hle.
    assert (Hin : get (hd ∅ txs) "to" (FStr "") ∈ remove_dups cps).
    { apply elem_of_remove_dups. unfold cps.
      destruct txs as [|tx0 txs']; [congruence|]. cbn [hd flat_map app].
      left. }
    destruct (remove_dups cps); [inversion Hin|]. cbn [length] in *. lia.
Qed.

(** X6: when no record of a non-empty list has a truthy [timeStamp],
    the returned [time_span_days] and [transaction_frequency] are both the
    int 0. *)
Theorem no_timestamps_no_frequency (txs : list (gmap string field))
  (m : gmap string num) (Hne : txs <> []) (Hret : analyze txs = Ok m)
  (Hnone : Forall (fun tx : gmap string field =>
                     truthy (tx !! "timeStamp") = false) txs) :
  m !! "time_span_days" = Some (NInt 0)
  /\ m !! "transaction_frequency" = Some (NInt 0).
Proof.
  destruct (analyze_nonempty_inv _ _ txs m Hne Hret)
    as (avg & span & freq & rate & volume & ts & Hts & Hsf & _ & _ & _
        & Hfreq & _ & Hspan & _).
  assert (Hempty : stamped txs = []).
  { unfold stamped. clear -Hnone.
    induction Hnone as [|tx txs Htx _ IH]; [reflexivity|].
    cbn [List.filter]. rewrite Htx. exact IH. }
  rewrite Hempty in Hts. cbn [mapM] in Hts. injection Hts as <-.
  destruct Hsf as [-> ->]. split; assumption.
Qed.

End MoreNormalizer.

Lemma normalizer_counts_witness :
  analyze_transaction_patterns decimal_float decimal_int
    [Records.tx1; Records.tx2] = Ok World.metrics2
  /\ exists failed unique : Z,
       World.metrics2 !! "failed_transactions" = Some (NInt failed)
       /\ World.metrics2 !! "unique_counterparties" = Some (NInt unique)
       /\ 0 <= failed <= 2 /\ 1 <= unique <= 4.
Proof.
  assert (Hm : analyze_transaction_patterns decimal_float decimal_int
                 [Records.tx1; Records.tx2] = Ok World.metrics2)
    by (vm_cast_no_check (@Logic.eq_refl _ (Ok World.metrics2))).
  split; [exact Hm|].
  assert (Hne : [Records.tx1; Records.tx2] <> []) by (intros H; inversion H).
  destruct (normalizer_counts decimal_float decimal_int
              [Records.tx1; Records.tx2] World.metrics2 Hne Hm)
    as (failed & unique & _ & Hf & Hu & Hfb & Hub).
  exists failed, unique. repeat split; try assumption; apply Hfb || apply Hub.
Defined.

Lemma no_timestamps_no_frequency_witness :
  analyze_transaction_patterns decimal_float decimal_int
    [Records.tx_unstamped] = Ok Records.metrics_unstamped
  /\ Records.metrics_unstamped !! "transaction_frequency" = Some (NInt 0).
Proof.
  assert (Hm : analyze_transaction_patterns decimal_float decimal_int
                 [Records.tx_unstamped] = Ok Records.metrics_unstamped)
    by (vm_cast_no_check (@Logic.eq_refl _ (Ok Records.metrics_unstamped))).
  split; [exact Hm|].
  assert (Hne : [Records.tx_unstamped] <> []) by (intros H; inversion H).
  refine (proj2 (no_timestamps_no_frequency decimal_float decimal_int
                   [Records.tx_unstamped] Records.metrics_unstamped
                   Hne Hm _)).
  apply List.Forall_cons; [vm_compute; reflexivity|apply List.Forall_nil].
Defined.

Section MorePipeline.

Variable float_of_str : string -> result float.
Variable int_of_str : string -> result Z.
Variable data_fetcher : DataFetcher.

Local Abbreviation analyze :=
  (analyze_transaction_patterns float_of_str int_of_str).
Local Abbreviation process :=
  (process_wallet float_of_str int_of_str data_fetcher).
Local Abbreviation score :=
  (score_wallet float_of_str int_of_str data_fetcher).

Lemma score_wallet_inv (w : string) (txs : list (gmap string field))
  (r : RiskAssessment) :
  score w txs = Ok r ->
  exists m cd bd, calculate_risk_score w m cd bd = Ok r.
Proof.
  unfold score_wallet.
  destruct (analyze txs) as [m|]; cbn [bind]; [|intros H; discriminate H].
  destruct (get_compound_interactions _ _) as [fetched|]; cbn [bind];
    [|intros H; discriminate H].
  intros H. eexists _, _, _. exact H.
Qed.

(** A record of [process_wallet] is either a scored assessment or the
    error placeholder. *)
Lemma process_wallet_cases (w : string) :
  (exists m cd bd, calculate_risk_score w m cd bd = Ok (process w))
  \/ exists msg, process w = _create_error_result w msg.
Proof.
  unfold process_wallet.
  destruct (get_wallet_transactions _ _) as [txs|err];
    [|right; eexists; reflexivity].
  destruct (score w txs) as [r|e] eqn:Hs; [|right; eexists; reflexivity].
  left. apply score_wallet_inv in Hs. exact Hs.
Qed.

Lemma process_wallet_address_and_error (w : string) :
  wallet_address (process w) = w
  /\ (error (process w) = None <-> risk_score (process w) <> 999).
Proof.
  destruct (process_wallet_cases w) as [(m & cd & bd & Hr)|[msg ->]].
  - pose proof (risk_score_range _ _ _ _ _ Hr) as Hrange.
    apply calculate_risk_score_inv in Hr
      as (sb & sd & ws & scaled & _ & _ & _ & _ & _ & _ & Hrec).
    rewrite Hrec. cbn [wallet_address error]. split; [reflexivity|].
    split; [intros _; rewrite <- Hrec; lia|reflexivity].
  - cbn. split; [reflexivity|]. split; [discriminate|congruence].
Qed.

(** X7: whatever the provider answers, the record [process_wallet]
    returns carries the address it was called with, and it has an [error]
    exactly when its risk score is 999. *)
Theorem process_wallet_record (w : string) :
  wallet_address (process_wallet float_of_str int_of_str data_fetcher w) = w
  /\ (error (process_wallet float_of_str int_of_str data_fetcher w) = None
      <-> risk_score (process_wallet float_of_str int_of_str data_fetcher w)
          <> 999).
Proof. exact (process_wallet_address_and_error w). Qed.

(** X8: a wallet whose transaction list is fetched but empty is reported
    as failed with the message "division by zero": scoring the
    normalizer's empty record divides by its zero transaction count,
    whatever the protocol-usage and balance answers are. *)
Theorem empty_wallet_is_reported_failed (w : string)
  (fetched : response (gmap string num))
  (Htx : get_wallet_transactions data_fetcher w = Success [])
  (Hcd : get_compound_interactions data_fetcher w = Ok fetched)
  (Hbal : forall d, get_wallet_balance_history data_fetcher w = Success d ->
                    convertible (get d "current_balance_eth" (NInt 0))) :
  process w = _create_error_result w "division by zero".
Proof.
  unfold process_wallet, score_wallet. rewrite Htx. cbn [analyze_transaction_patterns bind].
  rewrite Hcd. cbn [bind].
  set (cd := match fetched with Success d => d | Failure _ => _ end).
  set (bd := match get_wallet_balance_history data_fetcher w with
             | Success d => d | Failure _ => _ end).
  assert (Hconv : convertible (get bd "current_balance_eth" (NInt 0))).
  { unfold bd. destruct (get_wallet_balance_history data_fetcher w) as [d|];
      [apply Hbal; reflexivity|vm_compute; reflexivity]. }
  destruct (balance_score_returns bd empty_metrics Hconv) as [sb Hsb];
    [vm_compute; reflexivity|].
  unfold calculate_risk_score. rewrite Hsb. cbn [bind].
  change (calculate_counterparty_diversity_score empty_metrics)
    with (@Raise num (Exn ZeroDivisionError "division by zero")).
  reflexivity.
Qed.

(** X9: one transaction whose [value] does not parse makes the wallet a
    failed one, with the parser's message: the first such exception
    escapes the normalizer and [process_wallet] turns it into the error
    placeholder. *)
Theorem malformed_value_is_reported_failed (w : string)
  (good rest : list (gmap string field)) (bad : gmap string field) (e : exn)
  (Htx : get_wallet_transactions data_fetcher w
         = Success (good ++ bad :: rest))
  (Hgood : Forall (fun tx => is_ok (float_of_field float_of_str
                                      (get tx "value" (FInt 0))) = true) good)
  (Hbad : float_of_field float_of_str (get bad "value" (FInt 0)) = Raise e) :
  analyze (good ++ bad :: rest) = Raise e
  /\ process w = _create_error_result w (exn_msg e).
Proof.
  assert (Hraise : analyze (good ++ bad :: rest) = Raise e).
  { replace (analyze (good ++ bad :: rest))
      with (analyze_nonempty float_of_str int_of_str (good ++ bad :: rest))
      by (destruct good; reflexivity).
    unfold analyze_nonempty.
    rewrite (mapM_first_failure _ good rest bad e Hgood Hbad). reflexivity. }
  split; [exact Hraise|].
  unfold process_wallet, score_wallet. rewrite Htx, Hraise. reflexivity.
Qed.

Variable to_csv : list Row -> string -> result unit.
Variable sleep : num -> result unit.

Local Abbreviation loop :=
  (batch_loop float_of_str int_of_str data_fetcher to_csv sleep).

(** X10: the loop never drops or reorders a wallet and adds at most one
    extra record per wallet. What it appends is, wallet by wallet in input
    order, the record [process_wallet] gives for the address, alone or
    followed by one error placeholder for the same address. Hence every
    address has between one and two records for each of its occurrences in
    the input, and an address that is not in the input has none. *)
Theorem batch_loop_keeps_every_wallet (output_file : string) (delay : num)
  (wallets : list string) (i : Z) (results : list RiskAssessment) :
  exists groups,
    loop output_file delay i wallets results = results ++ concat groups
    /\ Forall2 (fun w g =>
                  g = [process_wallet float_of_str int_of_str data_fetcher w]
                  \/ exists msg,
                       g = [process_wallet float_of_str int_of_str
                              data_fetcher w;
                            _create_error_result w msg])
               wallets groups
    /\ map process wallets `sublist_of` concat groups
    /\ (forall a : string,
          count_occ String.string_dec wallets a
          <= count_occ String.string_dec
               (map wallet_address (concat groups)) a
          <= 2 * count_occ String.string_dec wallets a)%nat
    /\ (length wallets <= length (concat groups) <= 2 * length wallets)%nat
    /\ Forall (fun r => In (wallet_address r) wallets) (concat groups).
Proof.
  revert i results. induction wallets as [|w wallets IH]; intros i results.
  - exists []. cbn [batch_loop map length concat count_occ].
    rewrite app_nil_r.
    repeat split; try lia; constructor.
  - cbn [batch_loop].
    destruct (IH (i + 1)
                (loop_body float_of_str int_of_str data_fetcher to_csv sleep
                   output_file delay i w results))
      as (groups & -> & Hgroups & Hsub & Hcount & Hlen & Hall).
    assert (Hw : wallet_address (process w) = w)
      by apply process_wallet_address_and_error.
    assert (Htail : Forall (fun r => In (wallet_address r) (w :: wallets))
                           (concat groups)).
    { eapply Forall_impl; [exact Hall|]. intros r Hr. right. exact Hr. }
    destruct (loop_body_records float_of_str int_of_str data_fetcher
                to_csv sleep output_file delay i w results)
      as [-> | [msg ->]]; rewrite <- app_assoc.
    + exists ([process w] :: groups). cbn [app map length concat].
      split; [reflexivity|].
      split; [apply List.Forall2_cons; [left; reflexivity|exact Hgroups]|].
      split; [constructor; exact Hsub|].
      split; [|split; [lia|]].
      * intros a. specialize (Hcount a). cbn [count_occ]. rewrite Hw.
        destruct (String.string_dec w a); lia.
      * constructor; [left; symmetry; exact Hw|exact Htail].
    + exists ([process w; _create_error_result w msg] :: groups).
      cbn [app map length concat].
      split; [reflexivity|].
      split; [apply List.Forall2_cons;
              [right; exists msg; reflexivity|exact Hgroups]|].
      split; [constructor; constructor; exact Hsub|].
      split; [|split; [lia|]].
      * intros a. specialize (Hcount a).
        cbn [count_occ wallet_address _create_error_result]. rewrite Hw.
        destruct (String.string_dec w a); lia.
      * constructor; [left; symmetry; exact Hw|].
        constructor; [left; reflexivity|].
        exact Htail.
Qed.


Variable read_wallet_ids : string -> result (list string).
Variable _print_summary_statistics : list Row -> result unit.

(** X12: when the wallet list is read and no write, sleep or summary
    raises, [process_wallet_list] returns a table with exactly one row per
    input address, in input order. *)
Theorem process_wallet_list_rows (wallet_file output_file : string)
  (delay : num) (wallets : list string)
  (Hread : read_wallet_ids wallet_file = Ok wallets)
  (Hcsv : forall rows path, to_csv rows path = Ok tt)
  (Hsleep : forall s, sleep s = Ok tt)
  (Hprint : forall rows, _print_summary_statistics rows = Ok tt) :
  exists rows,
    process_wallet_list float_of_str int_of_str data_fetcher
      read_wallet_ids to_csv sleep _print_summary_statistics
      wallet_file output_file delay = Ok rows
    /\ map wallet_id rows = wallets
    /\ rows = _create_results_dataframe (map process wallets).
Proof.
  unfold process_wallet_list. rewrite Hread. cbn [bind].
  rewrite (batch_loop_quiet float_of_str int_of_str data_fetcher
             to_csv sleep output_file delay Hcsv Hsleep).
  cbn [app]. rewrite Hcsv. cbn [bind]. rewrite Hprint. cbn [bind].
  eexists. split; [reflexivity|]. split; [|reflexivity].
  unfold _create_results_dataframe. rewrite !map_map. cbn [wallet_id].
  induction wallets as [|w ws IH] in |- *; [reflexivity|].
  cbn [map]. f_equal; [apply process_wallet_address_and_error|exact IH].
Qed.

End MorePipeline.


Lemma empty_wallet_is_reported_failed_witness :
  get_wallet_transactions World2.fetcher_empty "w1" = Success []
  /\ process_wallet decimal_float decimal_int World2.fetcher_empty "w1"
     = _create_error_result "w1" "division by zero".
Proof.
  split; [reflexivity|].
  apply (empty_wallet_is_reported_failed decimal_float decimal_int
           World2.fetcher_empty "w1"
           (Success {[ "compound_count" := NInt 0 ]})
           Logic.eq_refl Logic.eq_refl).
  intros d Hd. injection Hd as <-. vm_compute. exact I.
Defined.

Lemma malformed_value_is_reported_failed_witness :
  float_of_field decimal_float (get World2.tx_bad "value" (FInt 0))
  = Raise (Exn ValueError "could not convert string to float: 'abc'")
  /\ process_wallet decimal_float decimal_int World2.fetcher_malformed "w1"
     = _create_error_result "w1" "could not convert string to float: 'abc'".
Proof.
  assert (Hbad : float_of_field decimal_float
                   (get World2.tx_bad "value" (FInt 0))
                 = Raise (Exn ValueError "could not convert string to float: 'abc'"))
    by (vm_compute; reflexivity).
  split; [exact Hbad|].
  refine (proj2 (malformed_value_is_reported_failed decimal_float decimal_int
                   World2.fetcher_malformed "w1" [Records.tx1] []
                   World2.tx_bad _ Logic.eq_refl _ Hbad)).
  apply List.Forall_cons; [vm_compute; reflexivity|apply List.Forall_nil].
Defined.


Lemma process_wallet_list_rows_witness :
  World2.read_two "Walletid.csv" = Ok ["w1"; "w2"]
  /\ exists rows,
       process_wallet_list decimal_float decimal_int World.fetcher
         World2.read_two World2.to_csv_ok World.sleep World2.print_ok
         "Walletid.csv" "wallet_risk_scores.csv" (NFloat 0.5) = Ok rows
       /\ map wallet_id rows = ["w1"; "w2"].
Proof.
  split; [reflexivity|].
  destruct (process_wallet_list_rows decimal_float decimal_int World.fetcher
              World2.to_csv_ok World.sleep World2.read_two World2.print_ok
              "Walletid.csv" "wallet_risk_scores.csv" (NFloat 0.5)
              ["w1"; "w2"] Logic.eq_refl
              (fun _ _ => Logic.eq_refl) (fun _ => Logic.eq_refl)
              (fun _ => Logic.eq_refl))
    as (rows & Hrows & Hids & _).
  exists rows. split; assumption.
Defined.


(* ===================================================================== *)
(** * Properties of get_compound_interactions                             *)
(* ===================================================================== *)

Section InteractionFacts.

Variable int_has_no_lower : exn.

Local Abbreviation is_interaction :=
  (Interactions.is_interaction int_has_no_lower).
Local Abbreviation select := (Interactions.select int_has_no_lower).
Local Abbreviation interactions :=
  (Interactions.get_compound_interactions int_has_no_lower).

Lemma prefix_refl (s : string) : String.prefix s s = true.
Proof.
  induction s as [|c s IH]; cbn [String.prefix]; [reflexivity|].
  destruct (Ascii.ascii_dec c c); [exact IH|congruence].
Qed.

Lemma contains_refl (s : string) : Interactions.contains s s = true.
Proof.
  destruct s; cbn [Interactions.contains]; rewrite prefix_refl; reflexivity.
Qed.

(** A recipient that is a contract address mentions it. *)
Lemma is_contract_mentions (to_ : string) :
  Interactions.is_contract to_ = true ->
  Interactions.mentions_contract to_ = true.
Proof.
  unfold Interactions.is_contract, Interactions.mentions_contract.
  rewrite !existsb_exists. intros (x & Hx & Heq).
  apply in_map_iff in Hx as (addr & <- & Haddr).
  apply String.eqb_eq in Heq. exists addr. split; [exact Haddr|].
  rewrite Heq. apply contains_refl.
Qed.

Lemma is_interaction_true (w : string) (tx : gmap string field) :
  is_interaction w tx = Ok true <->
  exists to_,
    tx !! "to" = Some (FStr to_)
    /\ (Interactions.is_contract to_ = true
        \/ (Interactions.mentions_contract to_ = true
            /\ exists from_, tx !! "from" = Some (FStr from_)
                             /\ Interactions.lower from_
                                = Interactions.lower w)).
Proof.
  unfold Interactions.is_interaction, Interactions.lower_item.
  destruct (tx !! "to") as [[to_|z]|] eqn:Hto; cbn [bind].
  - fold (Interactions.is_contract to_).
    fold (Interactions.mentions_contract to_).
    destruct (Interactions.is_contract to_) eqn:Hc; cbn [bind].
    + rewrite (is_contract_mentions _ Hc). split; [|reflexivity].
      intros _. exists to_. split; [reflexivity|]. left. exact Hc.
    + destruct (tx !! "from") as [[from_|z]|] eqn:Hfrom; cbn [bind].
      * destruct (String.eqb_spec (Interactions.lower from_)
                                  (Interactions.lower w)) as [Heq|Hne].
        -- split.
           ++ intros H. injection H as H. exists to_.
              split; [reflexivity|]. right. split; [exact H|].
              exists from_. split; [reflexivity|exact Heq].
           ++ intros (to' & Hto' & [Hc'|(Hm & _)]);
                injection Hto' as <-; [congruence|].
              rewrite Hm. reflexivity.
        -- split; [intros H; discriminate H|].
           intros (to' & Hto' & [Hc'|(_ & from' & Hf' & Heq)]);
             injection Hto' as <-; [congruence|].
           injection Hf' as <-. congruence.
      * split; [intros H|intros (to' & Hto' & [Hc'|(_ & from' & Hf' & _)])];
          [| injection Hto' as <-; congruence | discriminate Hf'].
        destruct int_has_no_lower; discriminate H.
      * split; [intros H; discriminate H|].
        intros (to' & Hto' & [Hc'|(_ & from' & Hf' & _)]);
          [injection Hto' as <-; congruence|discriminate Hf'].
  - split; [intros H|intros (to' & Hto' & _); discriminate Hto'].
    destruct int_has_no_lower; discriminate H.
  - split; [intros H; discriminate H|].
    intros (to' & Hto' & _). discriminate Hto'.
Qed.

Lemma select_spec (w : string) (txs kept : list (gmap string field)) :
  select w txs = Ok kept ->
  kept `sublist_of` txs
  /\ forall tx, In tx kept <-> In tx txs /\ is_interaction w tx = Ok true.
Proof.
  revert kept. induction txs as [|tx0 txs IH]; intros kept;
    cbn [Interactions.select].
  - intros H. injection H as <-. split; [constructor|].
    intros tx. cbn [In]. tauto.
  - destruct (is_interaction w tx0) as [keep|] eqn:Hk; cbn [bind];
      [|intros H; discriminate H].
    destruct (select w txs) as [kept'|]; cbn [bind];
      [|intros H; discriminate H].
    intros H. injection H as <-.
    destruct (IH kept' Logic.eq_refl) as [Hsub Hin]. destruct keep.
    + split; [constructor; exact Hsub|]. intros tx. cbn [In].
      rewrite Hin. split.
      * intros [<-|[? ?]]; [split; [left; reflexivity|exact Hk]|].
        split; [right|]; assumption.
      * intros [[<-|Ht] Ht']; [left; reflexivity|right; split; assumption].
    + split; [constructor; exact Hsub|]. intros tx. rewrite Hin.
      cbn [In]. split.
      * intros [? ?]. split; [right|]; assumption.
      * intros [[<-|Ht] Ht']; [congruence|split; assumption].
Qed.

Lemma select_first_failure (w : string)
  (good rest : list (gmap string field)) (bad : gmap string field)
  (e : exn) :
  Forall (fun tx => is_ok (is_interaction w tx) = true) good ->
  is_interaction w bad = Raise e ->
  select w (good ++ bad :: rest) = Raise e.
Proof.
  intros Hgood Hbad.
  induction Hgood as [|tx good Htx _ IH]; cbn [app Interactions.select].
  - rewrite Hbad. reflexivity.
  - destruct (is_interaction w tx); [|discriminate Htx]. cbn [bind].
    rewrite IH. reflexivity.
Qed.

(** X14: a failed transaction fetch is handed back unchanged; on
    success [total_transactions] is the number of fetched records,
    [compound_count] the number of selected ones, never more than the
    total, and the selected records keep their order. *)
Theorem interactions_summary (w : string)
  (txs : list (gmap string field)) (r : Interactions.summary)
  (Hret : interactions w (Success txs) = Ok (Success r)) :
  Interactions.total_transactions r = length txs
  /\ Interactions.compound_count r
     = length (Interactions.compound_transactions r)
  /\ Interactions.compound_transactions r `sublist_of` txs
  /\ (Interactions.compound_count r <= Interactions.total_transactions r)%nat
  /\ forall err, interactions w (Failure err) = Ok (Failure err).
Proof.
  unfold Interactions.get_compound_interactions in Hret.
  destruct (select w txs) as [kept|] eqn:Hsel; cbn [bind] in Hret;
    [|discriminate Hret].
  injection Hret as <-.
  cbn [Interactions.total_transactions Interactions.compound_count
       Interactions.compound_transactions].
  destruct (select_spec _ _ _ Hsel) as [Hsub _].
  split; [reflexivity|]. split; [reflexivity|]. split; [exact Hsub|].
  split; [apply sublist_length, Hsub|]. intros err. reflexivity.
Qed.

(** X15: a fetched record is counted exactly when its [to] is a string
    that is a known contract address, or that contains one while [from] is
    the wallet itself; letter case is ignored in both comparisons. So every
    transaction sent to a contract address is counted, whoever sent it, and
    the wallet's transfers to other recipients are not. *)
Theorem interactions_selection (w : string)
  (txs : list (gmap string field)) (r : Interactions.summary)
  (Hret : interactions w (Success txs) = Ok (Success r))
  (tx : gmap string field) :
  In tx (Interactions.compound_transactions r) <->
  In tx txs
  /\ exists to_,
       tx !! "to" = Some (FStr to_)
       /\ (Interactions.is_contract to_ = true
           \/ (Interactions.mentions_contract to_ = true
               /\ exists from_, tx !! "from" = Some (FStr from_)
                                /\ Interactions.lower from_
                                   = Interactions.lower w)).
Proof.
  unfold Interactions.get_compound_interactions in Hret.
  destruct (select w txs) as [kept|] eqn:Hsel; cbn [bind] in Hret;
    [|discriminate Hret].
  injection Hret as <-. cbn [Interactions.compound_transactions].
  destruct (select_spec _ _ _ Hsel) as [_ Hin].
  rewrite Hin, is_interaction_true. reflexivity.
Qed.

(** X16: a record without a [to] key makes the whole call raise
    [KeyError('to')], provided the records before it were read without
    an exception. *)
Theorem interactions_missing_recipient (w : string)
  (good rest : list (gmap string field)) (bad : gmap string field)
  (Hgood : Forall (fun tx => is_ok (is_interaction w tx) = true) good)
  (Hbad : bad !! "to" = None) :
  interactions w (Success (good ++ bad :: rest))
  = Raise (Exn KeyError "'to'").
Proof.
  unfold Interactions.get_compound_interactions.
  rewrite (select_first_failure w good rest bad (Exn KeyError "'to'") Hgood).
  - reflexivity.
  - unfold Interactions.is_interaction, Interactions.lower_item.
    rewrite Hbad. reflexivity.
Qed.

End InteractionFacts.

Lemma interactions_summary_witness :
  let r := {| Interactions.compound_transactions :=
                [Interactions.to_cdai_upper];
              Interactions.total_transactions := 2;
              Interactions.compound_count := 1 |} in
  Interactions.get_compound_interactions Interactions.attribute_error "0xme"
    (Success [Interactions.plain_transfer; Interactions.to_cdai_upper])
  = Ok (Success r)
  /\ (Interactions.compound_count r <= Interactions.total_transactions r)%nat.
Proof.
  cbn zeta.
  match goal with
  | |- ?run = ?res /\ _ =>
      assert (H : run = res) by (vm_cast_no_check (@Logic.eq_refl _ res))
  end.
  split; [exact H|].
  exact (proj1 (proj2 (proj2 (proj2
           (interactions_summary Interactions.attribute_error _ _ _ H))))).
Defined.

Lemma interactions_selection_witness :
  let r := {| Interactions.compound_transactions :=
                [Interactions.to_cdai_upper];
              Interactions.total_transactions := 2;
              Interactions.compound_count := 1 |} in
  Interactions.get_compound_interactions Interactions.attribute_error "0xme"
    (Success [Interactions.plain_transfer; Interactions.to_cdai_upper])
  = Ok (Success r)
  /\ ~ In Interactions.plain_transfer (Interactions.compound_transactions r).
Proof.
  cbn zeta.
  match goal with
  | |- ?run = ?res /\ _ =>
      assert (H : run = res) by (vm_cast_no_check (@Logic.eq_refl _ res))
  end.
  split; [exact H|].
  intros Hin.
  apply (interactions_selection Interactions.attribute_error _ _ _ H) in Hin
    as (_ & to_ & Hto & Hsel).
  vm_compute in Hto. injection Hto as <-.
  destruct Hsel as [Hc|[Hm _]]; vm_compute in Hc || vm_compute in Hm;
    discriminate.
Defined.

Lemma interactions_missing_recipient_witness :
  Interactions.no_recipient !! "to" = None
  /\ Interactions.get_compound_interactions Interactions.attribute_error
       "0xme" (Success [Interactions.to_cdai_upper; Interactions.no_recipient])
     = Raise (Exn KeyError "'to'").
Proof.
  assert (Hbad : Interactions.no_recipient !! "to" = None)
    by (vm_compute; reflexivity).
  split; [exact Hbad|].
  apply (interactions_missing_recipient Interactions.attribute_error "0xme"
           [Interactions.to_cdai_upper] [] Interactions.no_recipient);
    [|exact Hbad].
  apply List.Forall_cons; [vm_compute; reflexivity|apply List.Forall_nil].
Defined.
